(** * EasyClangComplete: [plugin/clang/utils.py]

    A shallow embedding of the class [ClangUtils] and proofs about the
    library discovery ([find_libclang_dir], [dir_from_output],
    [try_load_from_user_hint]), the link renderer ([link_from_location])
    and the doxygen comment normalisation ([cleanup_comment]).

    Python [str] values are modelled as [string]; a character stands for
    the code point of the same number (the range U+0000..U+00FF). *)

From Stdlib Require Import String Ascii List Bool Arith ZArith Lia.
From Stdlib Require Import DecimalString.
Import ListNotations.

Local Open Scope list_scope.
Local Open Scope string_scope.

(** ** Python string primitives used by the module *)

Module PyStr.

Definition nl : ascii := "010"%char.
Definition dquote : ascii := "034"%char.

(** [str.isspace] on one character, for code points below 256:
    TAB, LF, VT, FF, CR, FS, GS, RS, US, SPACE, NEL and NBSP. *)
Definition isspace (c : ascii) : bool :=
  let n := nat_of_ascii c in
  (((9 <=? n) && (n <=? 13)) || ((28 <=? n) && (n <=? 32))
   || (n =? 133) || (n =? 160))%nat.

(** Truth value of a string: [bool(s)]. *)
Definition truthy (s : string) : bool :=
  match s with EmptyString => false | String _ _ => true end.

(** Truth value of a string or [None]. *)
Definition truthy_opt (o : option string) : bool :=
  match o with Some s => truthy s | None => false end.

(** [s.startswith(p)] *)
Definition startswith (s p : string) : bool := String.prefix p s.

(** [s.endswith(p)] *)
Fixpoint endswith (s p : string) : bool :=
  String.eqb s p ||
  match s with
  | EmptyString => false
  | String _ s' => endswith s' p
  end.

(** [p in s] *)
Fixpoint contains (s p : string) : bool :=
  String.prefix p s ||
  match s with
  | EmptyString => false
  | String _ s' => contains s' p
  end.

(** [s[n:]] for [n >= 0] *)
Fixpoint slice_from (n : nat) (s : string) : string :=
  match n, s with
  | O, _ => s
  | S _, EmptyString => EmptyString
  | S k, String _ s' => slice_from k s'
  end.

(** [s[:n]] for [n >= 0] *)
Fixpoint slice_to (n : nat) (s : string) : string :=
  match n, s with
  | O, _ => EmptyString
  | S _, EmptyString => EmptyString
  | S k, String c s' => String c (slice_to k s')
  end.

(** [s[:-n]] for [n > 0]: everything but the last [n] characters. *)
Definition slice_to_neg (n : nat) (s : string) : string :=
  slice_to (String.length s - n) s.

(** [s.lstrip()] *)
Fixpoint lstrip (s : string) : string :=
  match s with
  | EmptyString => EmptyString
  | String c s' => if isspace c then lstrip s' else s
  end.

(** [s.rstrip()] *)
Fixpoint rstrip (s : string) : string :=
  match s with
  | EmptyString => EmptyString
  | String c s' =>
      match rstrip s' with
      | EmptyString => if isspace c then EmptyString else String c EmptyString
      | r => String c r
      end
  end.

(** [s.strip()] *)
Definition strip (s : string) : string := rstrip (lstrip s).

(** [s.split(sep)] for a one-character separator: never the empty list. *)
Fixpoint split (sep : ascii) (s : string) : list string :=
  match s with
  | EmptyString => [EmptyString]
  | String c s' =>
      if Ascii.eqb c sep then EmptyString :: split sep s'
      else match split sep s' with
           | h :: t => String c h :: t
           | [] => [String c EmptyString]
           end
  end.

(** [sep.join(l)] *)
Definition join (sep : string) (l : list string) : string :=
  String.concat sep l.

(** [s.replace(old, new)] for a non-empty [old]: the occurrences are
    replaced from left to right and do not overlap.  [skip] counts the
    characters of an occurrence that are still to be passed over. *)
Fixpoint replace_from (skip : nat) (old new s : string) : string :=
  match s with
  | EmptyString => EmptyString
  | String c s' =>
      match skip with
      | S k => replace_from k old new s'
      | O =>
          if String.prefix old s
          then new ++ replace_from (String.length old - 1) old new s'
          else String c (replace_from 0 old new s')
      end
  end.

Definition replace (s old new : string) : string :=
  replace_from 0 old new s.

(** [str(n)] for a Python [int]. *)
Definition str_int (n : Z) : string :=
  match n with
  | Z0 => "0"
  | Zpos p => NilEmpty.string_of_uint (Pos.to_uint p)
  | Zneg p => String "-" (NilEmpty.string_of_uint (Pos.to_uint p))
  end.

End PyStr.

Import PyStr.

(** ** [cleanup_comment] *)

Module Comment.

(** The loop variables of [cleanup_comment] that live across
    iterations. *)
Record loop_state := mkLoop {
  clean_lines : list string;
  prev_line : string;
  is_brief_comment : bool
}.

Definition init : loop_state := mkLoop [] EmptyString false.

(** One iteration of [for line in lines].  The first value of [clean]
    (the stripped line without its comment marker) is computed and
    then overwritten, as in the source. *)
Definition body (st : loop_state) (line : string) : loop_state :=
  let clean := strip line in
  let clean :=
    if startswith clean "/" then slice_from 3 clean
    else if startswith clean "*" then slice_from 2 clean
    else clean in
  let clean := strip (slice_from 3 line) in
  let prev := clean in
  if startswith clean "@brief" || startswith clean "/brief" then
    mkLoop (clean_lines st) prev true
  else
    let brief :=
      if String.eqb clean EmptyString then false
      else is_brief_comment st in
    if String.eqb clean EmptyString && String.eqb prev EmptyString then
      mkLoop (clean_lines st) prev brief
    else if brief then
      mkLoop (clean_lines st) prev brief
    else
      mkLoop (clean_lines st ++ [clean])%list prev brief.

Definition run (lines : list string) : loop_state :=
  fold_left body lines init.

Definition cleanup_comment (raw_comment : string) : string :=
  let lines := split nl raw_comment in
  PyStr.join "<br>" (clean_lines (run lines)).

End Comment.

(** ** [os.path]

    The module [os.path] is the interpreter's, not the plugin's: the
    discovery code is written against its interface.  [posixpath] is its
    implementation on Linux and macOS. *)

Module OsPath.

Class path_module := {
  (** [path.join(a, *p)] *)
  join : string -> list string -> string;
  normpath : string -> string;
  dirname : string -> string;
  basename : string -> string
}.

Module Posix.

Definition sep : string := "/".

Definition join_step (path b : string) : string :=
  if startswith b sep then b
  else if negb (truthy path) || endswith path sep then path ++ b
  else path ++ sep ++ b.

Definition join (a : string) (p : list string) : string :=
  fold_left join_step p a.

(** [(p[:i], p[i:])] for [i = p.rfind('/') + 1] *)
Fixpoint rsplit_sep (p : string) : string * string :=
  match p with
  | EmptyString => (EmptyString, EmptyString)
  | String c p' =>
      let (h, t) := rsplit_sep p' in
      if truthy h then (String c h, t)
      else if Ascii.eqb c "/" then (sep, t)
      else (EmptyString, String c t)
  end.

(** [s == '/' * len(s)] *)
Fixpoint all_sep (s : string) : bool :=
  match s with
  | EmptyString => true
  | String c s' => Ascii.eqb c "/" && all_sep s'
  end.

(** [s.rstrip('/')] *)
Fixpoint rstrip_sep (s : string) : string :=
  match s with
  | EmptyString => EmptyString
  | String c s' =>
      match rstrip_sep s' with
      | EmptyString =>
          if Ascii.eqb c "/" then EmptyString else String c EmptyString
      | r => String c r
      end
  end.

Definition dirname (p : string) : string :=
  let head := fst (rsplit_sep p) in
  if truthy head && negb (all_sep head) then rstrip_sep head else head.

Definition basename (p : string) : string := snd (rsplit_sep p).

(** The loop of [normpath]; [new_comps] is kept with its last element
    first, and [initial_slashes] is 0, 1 or 2. *)
Definition norm_step (initial_slashes : nat) (new_comps : list string)
    (comp : string) : list string :=
  if String.eqb comp EmptyString || String.eqb comp "." then new_comps
  else if negb (String.eqb comp "..")
          || (Nat.eqb initial_slashes 0
              && match new_comps with [] => true | _ => false end)
          || match new_comps with
             | last :: _ => String.eqb last ".."
             | [] => false
             end
  then comp :: new_comps
  else match new_comps with
       | _ :: popped => popped
       | [] => new_comps
       end.

Fixpoint repeat_sep (n : nat) : string :=
  match n with O => EmptyString | S k => sep ++ repeat_sep k end.

Definition normpath (path : string) : string :=
  if String.eqb path EmptyString then "."
  else
    let initial_slashes :=
      if startswith path sep then
        if startswith path "//" && negb (startswith path "///")
        then 2 else 1
      else 0 in
    let comps := split "/" path in
    let new_comps :=
      rev (fold_left (norm_step initial_slashes) comps []) in
    let path := PyStr.join sep new_comps in
    let path := repeat_sep initial_slashes ++ path in
    if truthy path then path else ".".

#[export] Instance posixpath : path_module :=
  {| OsPath.join := join;
     OsPath.normpath := normpath;
     OsPath.dirname := dirname;
     OsPath.basename := basename |}.

End Posix.

End OsPath.

Import OsPath.

(** ** The world outside the interpreter, and the effects of the module *)

Module Effects.

Inductive exn :=
| KeyError (key : string)
| TypeError
| UnboundLocalError (name : string)
| CalledProcessError (returncode : Z)
| OSError (errno : Z)
| UnicodeDecodeError.

(** [subprocess.STARTUPINFO] and the constants the module uses. *)
Record STARTUPINFO := mkStartup { dwFlags : Z; wShowWindow : Z }.
Definition STARTF_USESHOWWINDOW : Z := 1.
Definition SW_HIDE : Z := 0.
Definition new_STARTUPINFO : STARTUPINFO := mkStartup 0 0.

Inductive redirect := PIPE.

(** One call of [subprocess.check_output]. *)
Record invocation := mkInvocation {
  cmd : list string;
  stdin : option redirect;
  stderr : option redirect;
  startupinfo : option STARTUPINFO
}.

(** What [check_output(...).decode('utf8')] evaluates to. *)
Inductive outcome :=
| Output (text : string)
| Fails (e : exn).

(** Everything the module reads from outside: [platform], the
    setting [SettingsStorage.CLANG_VERSION], the file system and the
    compiler.  The compiler's answer may depend on how many
    invocations were made before it. *)
Record world := mkWorld {
  system : string;
  architecture : string;
  python_version : string;
  CLANG_VERSION : string;
  path_exists : string -> bool;
  path_isdir : string -> bool;
  check_output : nat -> invocation -> outcome
}.

Inductive level := DEBUG | INFO | WARNING | ERROR.

(** The mutable state: the class attribute [ClangUtils.libclang_name],
    the records given to [log], and the invocations made so far. *)
Record state := mkState {
  libclang_name : option string;
  log : list (level * string);
  calls : list invocation
}.

Inductive result (A : Type) :=
| Return (a : A)
| Raise (e : exn).
Arguments Return {A} a.
Arguments Raise {A} e.

Definition M (A : Type) : Type := state -> result A * state.

Definition ret {A} (a : A) : M A := fun st => (Return a, st).

Definition raise {A} (e : exn) : M A := fun st => (Raise e, st).

Definition bind {A B} (m : M A) (k : A -> M B) : M B :=
  fun st =>
    match m st with
    | (Return a, st') => k a st'
    | (Raise e, st') => (Raise e, st')
    end.

Definition emit (l : level) (msg : string) : M unit :=
  fun st =>
    (Return tt,
     mkState (libclang_name st) (log st ++ [(l, msg)])%list (calls st)).

Definition set_libclang_name (name : string) : M unit :=
  fun st => (Return tt, mkState (Some name) (log st) (calls st)).

Definition run_check_output (w : world) (inv : invocation) : M string :=
  fun st =>
    let st' :=
      mkState (libclang_name st) (log st) (calls st ++ [inv])%list in
    match check_output w (List.length (calls st)) inv with
    | Output text => (Return text, st')
    | Fails e => (Raise e, st')
    end.

(** A loop body either falls through to the next iteration or leaves
    the function with a value. *)
Inductive flow (A : Type) :=
| Continue
| Returned (v : A).
Arguments Continue {A}.
Arguments Returned {A} v.

End Effects.

Import Effects.

Notation "x <- m ;; k" := (bind m (fun x => k))
  (at level 61, m at next level, right associativity).
Notation "m ;;; k" := (bind m (fun _ => k))
  (at level 61, right associativity).

(** ** [ClangUtils]: library discovery *)

Module ClangUtils.

Definition windows_suffixes : list string := [".dll"; ".lib"].
Definition linux_suffixes : list string := [".so"; ".so.1"].
Definition osx_suffixes : list string := [".dylib"].

(** A dict literal with string keys, in source order. *)
Definition dict := list (string * list string).

Fixpoint dict_get (d : dict) (key : string) : option (list string) :=
  match d with
  | [] => None
  | (k, v) :: d' => if String.eqb k key then Some v else dict_get d' key
  end.

Definition suffixes : dict :=
  [ ("Windows", windows_suffixes);
    ("Linux", linux_suffixes);
    ("Darwin", osx_suffixes) ].

Definition possible_filenames : dict :=
  [ ("Windows", ["libclang"; "clang"]);
    ("Linux", ["libclang-$version"; "libclang"]);
    ("Darwin", ["libclang"]) ].

(** [d[key]] *)
Definition subscript (d : dict) (key : string) : M (list string) :=
  match dict_get d key with
  | Some v => ret v
  | None => raise (KeyError key)
  end.

Section Discovery.

Context {P : path_module}.
Variable w : world.

Definition dir_from_output (output : string) : M (option string) :=
  emit DEBUG (" real output: " ++ output) ;;;
  if String.eqb (system w) "Darwin" then
    let folder_to_search := join output [".."; ".."] in
    emit DEBUG (" folder to search: " ++ folder_to_search) ;;;
    ret (Some folder_to_search)
  else if String.eqb (system w) "Windows" then
    emit DEBUG (" architecture: " ++ architecture w) ;;;
    ret (Some (normpath output))
  else if String.eqb (system w) "Linux" then
    ret (Some (normpath (dirname output)))
  else ret None.

Definition try_load_from_user_hint (libclang_path : string)
  : option string :=
  if path_exists w libclang_path then Some (dirname libclang_path)
  else None.

(** The command of one candidate, with the [stdin], [stderr] and
    [startupinfo] it is run with: the three are [None] unless the
    platform is Windows, where each iteration sets them before the
    call.  On any other platform than the three,
    [get_library_path_cmd] is left unbound. *)
Definition query (clang_binary file : string) : option invocation :=
  if String.eqb (system w) "Darwin" then
    Some (mkInvocation [clang_binary; "-print-file-name="]
                       None None None)
  else if String.eqb (system w) "Windows" then
    let startupinfo := new_STARTUPINFO in
    let startupinfo :=
      mkStartup (Z.lor (dwFlags startupinfo) STARTF_USESHOWWINDOW)
                (wShowWindow startupinfo) in
    let startupinfo := mkStartup (dwFlags startupinfo) SW_HIDE in
    Some (mkInvocation [clang_binary; "-print-prog-name="]
                       (Some PIPE) (Some PIPE) (Some startupinfo))
  else if String.eqb (system w) "Linux" then
    Some (mkInvocation [clang_binary; "-print-file-name=" ++ file]
                       None None None)
  else None.

(** The file a candidate stands for: on Linux [$version] is
    replaced after the name is put together. *)
Definition candidate_file (version_str name suffix : string) : string :=
  let file := name ++ suffix in
  if String.eqb (system w) "Linux"
  then replace file "$version" version_str
  else file.

(** The body of the inner loop, for one [suffix] and one [name]. *)
Definition candidate (clang_binary version_str suffix name : string)
  : M (flow string) :=
  let file := name ++ suffix in
  emit DEBUG (" searching for: '" ++ file ++ "'") ;;;
  let file := candidate_file version_str name suffix in
  get_library_path_cmd <-
    match query clang_binary file with
    | Some inv => ret inv
    | None => raise (UnboundLocalError "get_library_path_cmd")
    end ;;
  output <- run_check_output w get_library_path_cmd ;;
  let output := strip output in
  emit DEBUG (" libclang search output = '" ++ output ++ "'") ;;;
  let not_found :=
    emit WARNING (" clang could not find '" ++ file ++ "'") ;;;
    ret Continue in
  if truthy output then
    d <- dir_from_output output ;;
    match d with
    | None => raise TypeError
    | Some libclang_dir =>
        if path_isdir w libclang_dir then
          let full_libclang_path := join libclang_dir [file] in
          if path_exists w full_libclang_path then
            emit INFO (" found libclang library file: '"
                       ++ full_libclang_path ++ "'") ;;;
            set_libclang_name file ;;;
            ret (Returned libclang_dir)
          else not_found
        else not_found
    end
  else not_found.

Fixpoint for_names (clang_binary version_str suffix : string)
    (names : list string) : M (flow string) :=
  match names with
  | [] => ret Continue
  | name :: names' =>
      r <- candidate clang_binary version_str suffix name ;;
      match r with
      | Returned v => ret (Returned v)
      | Continue => for_names clang_binary version_str suffix names'
      end
  end.

Fixpoint for_suffixes (clang_binary version_str : string)
    (sufs : list string) : M (flow string) :=
  match sufs with
  | [] => ret Continue
  | suffix :: sufs' =>
      names <- subscript possible_filenames (system w) ;;
      r <- for_names clang_binary version_str suffix names ;;
      match r with
      | Returned v => ret (Returned v)
      | Continue => for_suffixes clang_binary version_str sufs'
      end
  end.

(** The platform search, from [if current_system == "Linux"] to the
    end of the function.  [version_str] is bound on Linux only and
    read on Linux only; the slice is total on strings. *)
Definition search (clang_binary : string) : M (option string) :=
  let version_str := slice_to_neg 2 (CLANG_VERSION w) in
  sufs <- subscript suffixes (system w) ;;
  r <- for_suffixes clang_binary version_str sufs ;;
  match r with
  | Returned libclang_dir => ret (Some libclang_dir)
  | Continue =>
      emit ERROR " no libclang found at all" ;;;
      ret None
  end.

Definition find_libclang_dir (clang_binary libclang_path : string)
  : M (option string) :=
  emit DEBUG (" platform: " ++ architecture w) ;;;
  emit DEBUG (" python version: " ++ python_version w) ;;;
  emit DEBUG (" we are on '" ++ system w ++ "'") ;;;
  emit DEBUG (" user provided libclang_path: " ++ libclang_path) ;;;
  let otherwise := search clang_binary in
  if truthy libclang_path then
    let libclang_dir := try_load_from_user_hint libclang_path in
    if truthy_opt libclang_dir then
      set_libclang_name (basename libclang_path) ;;;
      emit INFO (" using user-provided libclang: '"
                 ++ libclang_path ++ "'") ;;;
      ret libclang_dir
    else otherwise
  else otherwise.

(** *** What the loops compute

    A pure reading of the search, used to state what
    [find_libclang_dir] does; each definition is proved to agree
    with the code above. *)

(** The value of [dir_from_output], without its log records. *)
Definition output_dir (output : string) : option string :=
  if String.eqb (system w) "Darwin" then
    Some (join output [".."; ".."])
  else if String.eqb (system w) "Windows" then Some (normpath output)
  else if String.eqb (system w) "Linux" then
    Some (normpath (dirname output))
  else None.

(** The [(suffix, name)] pairs in the order the two loops reach
    them. *)
Definition candidates (sufs names : list string)
  : list (string * string) :=
  flat_map (fun suffix => map (fun name => (suffix, name)) names) sufs.

Definition file_of (version_str : string) (c : string * string)
  : string :=
  candidate_file version_str (snd c) (fst c).

(** The invocations made for a list of candidates. *)
Definition queries (clang_binary version_str : string)
    (cs : list (string * string)) : list invocation :=
  flat_map
    (fun c =>
       match query clang_binary (file_of version_str c) with
       | Some inv => [inv]
       | None => []
       end) cs.

(** How one pass through the loop body ends. *)
Inductive verdict :=
| Found (libclang_dir : string)
| NotFound
| Failed (e : exn).

(** The checks made on the text the compiler printed. *)
Definition verify (file text : string) : verdict :=
  let output := strip text in
  if truthy output then
    match output_dir output with
    | None => Failed TypeError
    | Some libclang_dir =>
        if path_isdir w libclang_dir then
          if path_exists w (join libclang_dir [file])
          then Found libclang_dir else NotFound
        else NotFound
    end
  else NotFound.

(** The verdict on candidate [c] when its query is invocation
    number [n] of the process. *)
Definition probe (clang_binary version_str : string) (n : nat)
    (c : string * string) : verdict :=
  let file := file_of version_str c in
  match query clang_binary file with
  | None => Failed (UnboundLocalError "get_library_path_cmd")
  | Some inv =>
      match check_output w n inv with
      | Fails e => Failed e
      | Output text => verify file text
      end
  end.

(** The two loops as one loop over [candidates]. *)
Fixpoint for_candidates (clang_binary version_str : string)
    (cs : list (string * string)) : M (flow string) :=
  match cs with
  | [] => ret Continue
  | c :: cs' =>
      r <- candidate clang_binary version_str (fst c) (snd c) ;;
      match r with
      | Returned v => ret (Returned v)
      | Continue => for_candidates clang_binary version_str cs'
      end
  end.

(** The candidates passed over as not found, and the first one, if
    any, that ends the search, with its verdict. *)
Fixpoint scan (clang_binary version_str : string) (n : nat)
    (cs : list (string * string))
  : list (string * string) * option ((string * string) * verdict) :=
  match cs with
  | [] => ([], None)
  | c :: cs' =>
      match probe clang_binary version_str n c with
      | NotFound =>
          let (passed, hit) := scan clang_binary version_str (S n) cs' in
          (c :: passed, hit)
      | v => ([], Some (c, v))
      end
  end.

(** The candidates a scan has queried, in order. *)
Definition queried
    (s : list (string * string) * option ((string * string) * verdict))
  : list (string * string) :=
  (fst s ++ match snd s with Some (c, _) => [c] | None => [] end)%list.

(** The candidates of the platform, when both dicts know it. *)
Definition platform_candidates : option (list (string * string)) :=
  match dict_get suffixes (system w),
        dict_get possible_filenames (system w) with
  | Some sufs, Some names => Some (candidates sufs names)
  | _, _ => None
  end.

(** The user hint is used: it is non-empty, exists, and has a
    non-empty directory part. *)
Definition hint_usable (libclang_path : string) : bool :=
  truthy libclang_path
  && truthy_opt (try_load_from_user_hint libclang_path).

End Discovery.

End ClangUtils.

(** ** [ClangUtils]: link rendering *)

Module Link.

(** The fields of [cindex.File] and [cindex.SourceLocation] that are
    read.  A location may be [None], and so may its file. *)
Record File := mkFile { name : string }.

Record SourceLocation := mkLocation {
  file : option File;
  line : Z;
  column : Z
}.

Definition link_from_location (location : option SourceLocation)
    (text : string) : string :=
  let result := EmptyString in
  let plain := result ++ text in
  match location with
  | Some loc =>
      match file loc with
      | Some f =>
          if truthy (name f) then
            let result := result ++ "<a href=" ++ String dquote EmptyString in
            let result := result ++ name f in
            let result := result ++ ":" in
            let result := result ++ str_int (line loc) in
            let result := result ++ ":" in
            let result := result ++ str_int (column loc) in
            let result :=
              result ++ (String dquote ">" ++ text ++ "</a>") in
            result
          else plain
      | None => plain
      end
  | None => plain
  end.

End Link.

(** ** Concrete worlds *)

Module Scenario.

Definition fresh : state := mkState None [] [].

Definition llvm_lib : string := "/usr/lib/llvm-3.8/lib".
Definition llvm_libclang : string := "/usr/lib/llvm-3.8/lib/libclang.so".

(** [clang -print-file-name=F] prints the path of [F], or [F] itself
    when it does not know the file; here it knows [libclang.so]. *)
Definition clang_print_file_name (inv : invocation) : outcome :=
  match cmd inv with
  | [_; arg] =>
      if String.eqb arg "-print-file-name=libclang.so"
      then Output (llvm_libclang ++ String nl EmptyString)
      else Output (slice_from 17 arg ++ String nl EmptyString)
  | _ => Fails (CalledProcessError 1)
  end.

(** A Linux machine with clang 3.8 and its libclang.so. *)
Definition linux : world :=
  mkWorld "Linux" "('64bit', 'ELF')" "3.3.6" "3.8.0"
          (fun p => String.eqb p llvm_libclang || String.eqb p llvm_lib)
          (fun p => String.eqb p llvm_lib)
          (fun _ => clang_print_file_name).

(** The same machine, where the first invocation of the process exits
    with status 1. *)
Definition linux_first_fails : world :=
  mkWorld "Linux" "('64bit', 'ELF')" "3.3.6" "3.8.0"
          (path_exists linux) (path_isdir linux)
          (fun n inv =>
             match n with
             | O => Fails (CalledProcessError 1)
             | S _ => clang_print_file_name inv
             end).

(** The same machine, where the compiler answers the query for
    [libclang.so] and exits with status 1 on every other one. *)
Definition linux_one_answer : world :=
  mkWorld "Linux" "('64bit', 'ELF')" "3.3.6" "3.8.0"
          (path_exists linux) (path_isdir linux)
          (fun _ inv =>
             match cmd inv with
             | [_; arg] =>
                 if String.eqb arg "-print-file-name=libclang.so"
                 then Output (llvm_libclang ++ String nl EmptyString)
                 else Fails (CalledProcessError 1)
             | _ => Fails (CalledProcessError 1)
             end).

(** A Linux machine where the compiler knows no libclang at all. *)
Definition linux_without_libclang : world :=
  mkWorld "Linux" "('64bit', 'ELF')" "3.3.6" "3.8.0"
          (fun _ => false) (fun _ => false)
          (fun _ inv =>
             match cmd inv with
             | [_; arg] => Output (slice_from 17 arg ++ String nl EmptyString)
             | _ => Fails (CalledProcessError 1)
             end).

(** A macOS machine where the compiler is not installed: every
    invocation fails with errno 2. *)
Definition darwin_without_clang : world :=
  mkWorld "Darwin" "('64bit', '')" "3.3.6" "3.8.0"
          (fun _ => false) (fun _ => false)
          (fun _ _ => Fails (OSError 2)).

(** A macOS machine whose compiler prints an empty line. *)
Definition darwin_silent : world :=
  mkWorld "Darwin" "('64bit', '')" "3.3.6" "3.8.0"
          (fun _ => false) (fun _ => false)
          (fun _ _ => Output (String nl EmptyString)).

(** The Linux machine, where the compiler prints an empty line for
    every file but [libclang.so]. *)
Definition linux_silent : world :=
  mkWorld "Linux" "('64bit', 'ELF')" "3.3.6" "3.8.0"
          (path_exists linux) (path_isdir linux)
          (fun _ inv =>
             match cmd inv with
             | [_; arg] =>
                 if String.eqb arg "-print-file-name=libclang.so"
                 then Output (llvm_libclang ++ String nl EmptyString)
                 else Output (String nl EmptyString)
             | _ => Fails (CalledProcessError 1)
             end).

(** A Windows machine; nothing of it is consulted but its name. *)
Definition windows : world :=
  mkWorld "Windows" "('64bit', 'WindowsPE')" "3.3.6" "3.8.0"
          (fun _ => false) (fun _ => false)
          (fun _ _ => Output EmptyString).

(** A Linux machine whose working directory holds [libclang.so]. *)
Definition linux_cwd : world :=
  mkWorld "Linux" "('64bit', 'ELF')" "3.3.6" "3.8.0"
          (fun p => String.eqb p "libclang.so"
                    || String.eqb p "./libclang.so" || String.eqb p ".")
          (fun p => String.eqb p ".")
          (fun _ inv =>
             match cmd inv with
             | [_; arg] => Output (slice_from 17 arg ++ String nl EmptyString)
             | _ => Fails (CalledProcessError 1)
             end).

(** A machine with two installations of the library. *)
Definition two_libraries : world :=
  mkWorld "Linux" "('64bit', 'ELF')" "3.3.6" "3.8.0"
          (fun p => String.eqb p "/opt/a/libclang.so"
                    || String.eqb p "/opt/b/libclang.so.1")
          (fun _ => false)
          (fun _ _ => Fails (OSError 2)).

(** The comment of the specification's example. *)
Definition doxygen : string :=
  "/** @brief Does X." ++ String nl (String nl
  (" Full text here." ++ String nl (String nl
  (" More text." ++ String nl "*/")))).

End Scenario.


(** ** Characters of a string *)

Module Chars.

(** No character of [s] passes [p]. *)
Fixpoint free_of (p : ascii -> bool) (s : string) : bool :=
  match s with
  | EmptyString => true
  | String c s' => negb (p c) && free_of p s'
  end.

Definition is_newline (c : ascii) : bool := Ascii.eqb c nl.

Definition is_slash (c : ascii) : bool := Ascii.eqb c "/".

End Chars.

(** ** [html.escape] *)

Module Html.

(** [html.escape(s)] with [quote=True], as the standard library writes
    it: a chain of [replace] calls, [&] first. *)
Definition escape (s : string) : string :=
  let s := replace s "&" "&amp;" in
  let s := replace s "<" "&lt;" in
  let s := replace s ">" "&gt;" in
  let s := replace s (String dquote EmptyString) "&quot;" in
  let s := replace s "'" "&#x27;" in
  s.

(** The entity one character is turned into, or the character itself. *)
Definition escape_char (c : ascii) : string :=
  if Ascii.eqb c "&" then "&amp;"
  else if Ascii.eqb c "<" then "&lt;"
  else if Ascii.eqb c ">" then "&gt;"
  else if Ascii.eqb c dquote then "&quot;"
  else if Ascii.eqb c "'" then "&#x27;"
  else String c EmptyString.

(** One of the five characters [escape] rewrites. *)
Definition special (c : ascii) : bool :=
  Ascii.eqb c "&" || Ascii.eqb c "<" || Ascii.eqb c ">"
  || Ascii.eqb c dquote || Ascii.eqb c "'".

(** One of the four characters that open or close a tag or an
    attribute value. *)
Definition markup (c : ascii) : bool :=
  Ascii.eqb c "<" || Ascii.eqb c ">"
  || Ascii.eqb c dquote || Ascii.eqb c "'".

End Html.

(** ** [ClangUtils]: cursor information *)

Module Info.

(** What is read of the cursor a type declaration is: its location. *)
Record Declaration := mkDeclaration {
  decl_location : option Link.SourceLocation
}.

(** [cindex.Type].  Every type has a pointee; for a type that points to
    nothing it is the invalid type, which is its own pointee, has no
    spelling, and whose declaration is a cursor at the null location. *)
Inductive ClangType :=
| InvalidType
| Type_ (spelling : string) (declaration : option Declaration)
        (pointee : ClangType).

Definition null_location : Link.SourceLocation := Link.mkLocation None 0 0.

Definition type_spelling (t : ClangType) : string :=
  match t with
  | InvalidType => EmptyString
  | Type_ s _ _ => s
  end.

Definition get_declaration (t : ClangType) : option Declaration :=
  match t with
  | InvalidType => Some (mkDeclaration (Some null_location))
  | Type_ _ d _ => d
  end.

Definition get_pointee (t : ClangType) : ClangType :=
  match t with
  | InvalidType => InvalidType
  | Type_ _ _ p => p
  end.

(** [cursor and cursor.location and cursor.location.file] as a truth
    value. *)
Definition has_file (cursor : option Declaration) : bool :=
  match cursor with
  | Some c =>
      match decl_location c with
      | Some l => match Link.file l with Some _ => true | None => false end
      | None => false
      end
  | None => false
  end.

(** [cursor.location] of a cursor that is there. *)
Definition location_of (cursor : option Declaration)
  : option Link.SourceLocation :=
  match cursor with
  | Some c => decl_location c
  | None => None
  end.

Definition location_from_type (clangType : ClangType)
  : option Link.SourceLocation :=
  let cursor := get_declaration clangType in
  if has_file cursor then location_of cursor
  else
    let cursor := get_declaration (get_pointee clangType) in
    if has_file cursor then location_of cursor
    else None.

(** An element of [cursor.get_arguments()]. *)
Record Argument := mkArgument {
  arg_spelling : string;
  arg_type : ClangType
}.

(** The fields and methods of [cindex.Cursor] that
    [build_info_details] reads; [kind] is the number of the cursor
    kind. *)
Record Cursor := mkCursor {
  spelling : string;
  cursor_type : ClangType;
  result_type : ClangType;
  location : option Link.SourceLocation;
  kind : nat;
  get_arguments : list Argument;
  is_static_method : bool;
  is_const_method : bool;
  brief_comment : option string;
  raw_comment : option string
}.

(** The loop that fills [args]. *)
Definition argument_text (arg : Argument) : string :=
  if truthy (arg_spelling arg)
  then type_spelling (arg_type arg) ++ " " ++ arg_spelling arg
  else type_spelling (arg_type arg) ++ " ".

(** The function from [result += '<b>Definition:</b><br>'] on, once
    [cursor_type] is chosen. *)
Definition details (cursor : Cursor) (chosen : ClangType)
    (function_kinds_list : list nat) : string :=
  let result := EmptyString in
  let result := result ++ "<b>Definition:</b><br>" in
  let result :=
    if negb (String.eqb (spelling cursor)
                        (type_spelling (cursor_type cursor)))
    then
      let result :=
        result ++ Link.link_from_location
                    (location_from_type chosen)
                    (Html.escape (type_spelling chosen)) in
      result ++ " "
    else result in
  let result :=
    match location cursor with
    | Some _ =>
        result ++ Link.link_from_location (location cursor)
                    (Html.escape (spelling cursor))
    | None => result ++ Html.escape (spelling cursor)
    end in
  let args := map argument_text (get_arguments cursor) in
  let result :=
    if existsb (Nat.eqb (kind cursor)) function_kinds_list then
      let result := result ++ "(" in
      let result :=
        if Nat.ltb 0 (List.length args)
        then result ++ Html.escape (PyStr.join ", " args)
        else result in
      result ++ ")"
    else result in
  let result :=
    if is_static_method cursor then "static " ++ result else result in
  let result :=
    if is_const_method cursor then result ++ " const" else result in
  let result :=
    if truthy_opt (brief_comment cursor) then
      let result := result ++ "<br><br><b>Brief documentation:</b><br>" in
      result ++ ("<div>"
                 ++ match brief_comment cursor with
                    | Some b => b
                    | None => EmptyString
                    end
                 ++ "</div>")
    else result in
  let result :=
    match raw_comment cursor with
    | Some raw =>
        if truthy raw then
          let html_raw_comment := Comment.cleanup_comment raw in
          if Nat.ltb 0 (String.length html_raw_comment) then
            let result := result ++ "<br><b>Full Doxygen comment:</b>" in
            result ++ ("<br><div>" ++ html_raw_comment ++ "</div>")
          else result
        else result
    | None => result
    end in
  result.

(** The pieces [details] puts together, in the order they stand in the
    result. *)
Definition static_part (cursor : Cursor) : string :=
  if is_static_method cursor then "static " else EmptyString.

Definition type_part (cursor : Cursor) (chosen : ClangType) : string :=
  if negb (String.eqb (spelling cursor) (type_spelling (cursor_type cursor)))
  then Link.link_from_location (location_from_type chosen)
         (Html.escape (type_spelling chosen)) ++ " "
  else EmptyString.

Definition name_part (cursor : Cursor) : string :=
  match location cursor with
  | Some _ =>
      Link.link_from_location (location cursor)
        (Html.escape (spelling cursor))
  | None => Html.escape (spelling cursor)
  end.

Definition args_part (cursor : Cursor) (function_kinds_list : list nat)
  : string :=
  if existsb (Nat.eqb (kind cursor)) function_kinds_list then
    "("
    ++ (if Nat.ltb 0 (List.length (get_arguments cursor))
        then Html.escape
               (PyStr.join ", " (map argument_text (get_arguments cursor)))
        else EmptyString)
    ++ ")"
  else EmptyString.

Definition const_part (cursor : Cursor) : string :=
  if is_const_method cursor then " const" else EmptyString.

Definition brief_part (cursor : Cursor) : string :=
  match brief_comment cursor with
  | Some b =>
      if truthy b
      then "<br><br><b>Brief documentation:</b><br><div>" ++ b ++ "</div>"
      else EmptyString
  | None => EmptyString
  end.

Definition doc_part (cursor : Cursor) : string :=
  match raw_comment cursor with
  | Some raw =>
      if truthy raw && Nat.ltb 0 (String.length (Comment.cleanup_comment raw))
      then "<br><b>Full Doxygen comment:</b><br><div>"
           ++ Comment.cleanup_comment raw ++ "</div>"
      else EmptyString
  | None => EmptyString
  end.


Definition with_raw_comment (cursor : Cursor) (raw : option string)
  : Cursor :=
  mkCursor (spelling cursor) (cursor_type cursor) (result_type cursor)
           (location cursor) (kind cursor) (get_arguments cursor)
           (is_static_method cursor) (is_const_method cursor)
           (brief_comment cursor) raw.

Definition build_info_details (cursor : Cursor)
    (function_kinds_list : list nat) : M string :=
  if truthy (type_spelling (result_type cursor)) then
    ret (details cursor (result_type cursor) function_kinds_list)
  else if truthy (type_spelling (cursor_type cursor)) then
    ret (details cursor (cursor_type cursor) function_kinds_list)
  else
    emit WARNING "No spelling for type provided in info." ;;;
    ret EmptyString.

End Info.

(** ** Raw comments as lists of lines *)

Module Lines.

(** The raw comment whose lines are [lines]. *)
Definition unlines (lines : list string) : string :=
  PyStr.join (String nl EmptyString) lines.

(** What one raw line is turned into: [line[3:].strip()]. *)
Definition cleaned (line : string) : string := strip (slice_from 3 line).

(** The test that opens a brief section. *)
Definition is_brief (line : string) : bool :=
  startswith (cleaned line) "@brief" || startswith (cleaned line) "/brief".

(** [sub] is [l] with some elements left out. *)
Fixpoint subsequence (sub l : list string) : Prop :=
  match sub, l with
  | [], _ => True
  | _ :: _, [] => False
  | x :: sub', y :: l' =>
      (x = y /\ subsequence sub' l') \/ subsequence sub l'
  end.

End Lines.

(** ** More concrete worlds *)

Module Scenario2.

(** A FreeBSD machine: a platform the two dicts do not know. *)
Definition freebsd : world :=
  mkWorld "FreeBSD" "('64bit', 'ELF')" "3.3.6" "3.8.0"
          (fun _ => false) (fun _ => false)
          (fun _ _ => Output EmptyString).

(** An MSYS2 installation on Windows: the compiler prints the directory
    of its programs, which holds [clang.dll] and no [libclang.dll]. *)
Definition msys2 : world :=
  mkWorld "Windows" "('64bit', 'WindowsPE')" "3.3.6" "3.8.0"
          (fun p => String.eqb p "/mingw64/bin"
                    || String.eqb p "/mingw64/bin/clang.dll")
          (fun p => String.eqb p "/mingw64/bin")
          (fun _ _ => Output ("/mingw64/bin" ++ String nl EmptyString)).

(** A method [int Foo::bar(const char * s, int) const] declared in
    [/src/foo.h], with a doxygen comment. *)
Definition int_type : Info.ClangType :=
  Info.Type_ "int" (Some (Info.mkDeclaration (Some Info.null_location)))
             Info.InvalidType.

Definition char_ptr : Info.ClangType :=
  Info.Type_ "const char *"
             (Some (Info.mkDeclaration (Some Info.null_location)))
             (Info.Type_ "const char"
                (Some (Info.mkDeclaration (Some Info.null_location)))
                Info.InvalidType).

Definition bar : Info.Cursor :=
  Info.mkCursor "bar"
    (Info.Type_ "int (const char *, int) const"
       (Some (Info.mkDeclaration (Some Info.null_location)))
       Info.InvalidType)
    int_type
    (Some (Link.mkLocation (Some (Link.mkFile "/src/foo.h")) 12 7))
    21
    [Info.mkArgument "s" char_ptr; Info.mkArgument EmptyString int_type]
    false true
    (Some "Does X.")
    (Some Scenario.doxygen).

(** A class, a pointer to it, and a pointer to that pointer. *)
Definition foo_location : Link.SourceLocation :=
  Link.mkLocation (Some (Link.mkFile "/src/foo.h")) 3 7.

Definition foo : Info.ClangType :=
  Info.Type_ "Foo" (Some (Info.mkDeclaration (Some foo_location)))
             Info.InvalidType.

Definition foo_ptr : Info.ClangType :=
  Info.Type_ "Foo *" (Some (Info.mkDeclaration (Some Info.null_location)))
             foo.

Definition foo_ptr_ptr : Info.ClangType :=
  Info.Type_ "Foo **" (Some (Info.mkDeclaration (Some Info.null_location)))
             foo_ptr.

End Scenario2.
(** * Properties *)

(** ** Strings *)

Lemma append_nil_r (s : string) : s ++ EmptyString = s.
Proof. induction s as [|c s IH]; simpl; [reflexivity | now rewrite IH]. Qed.

Lemma append_assoc (a b c : string) : (a ++ b) ++ c = a ++ (b ++ c).
Proof. induction a as [|x a IH]; simpl; [reflexivity | now rewrite IH]. Qed.

Lemma length_append (a b : string) :
  String.length (a ++ b) = String.length a + String.length b.
Proof. induction a as [|x a IH]; simpl; [reflexivity | now rewrite IH]. Qed.

Lemma truthy_false (s : string) : truthy s = false <-> s = EmptyString.
Proof. destruct s; simpl; split; congruence. Qed.

Lemma truthy_true (s : string) : truthy s = true <-> s <> EmptyString.
Proof. destruct s; simpl; split; congruence. Qed.

(** ** Link rendering *)

Import Link.

(** C9.  [link_from_location] renders the anchor
    [<a href="FILE:LINE:COLUMN">text</a>] when the location is present and
    its file has a non-empty name, and returns [text] unchanged in every
    other case; [text] always appears verbatim, between two strings that
    do not depend on it.  The location [/a/b.h], line 10, column 4 with
    the text [foo] gives [<a href="/a/b.h:10:4">foo</a>]. *)
Theorem link_from_location_anchor_or_text :
  forall (location : option SourceLocation) (text : string),
    (forall loc f,
        location = Some loc -> file loc = Some f ->
        name f <> EmptyString ->
        link_from_location location text
        = "<a href=" ++ String dquote (name f) ++ ":"
          ++ str_int (line loc) ++ ":" ++ str_int (column loc)
          ++ String dquote ">" ++ text ++ "</a>")
    /\ ((location = None
         \/ (exists loc, location = Some loc /\ file loc = None)
         \/ (exists loc f, location = Some loc /\ file loc = Some f
                           /\ name f = EmptyString)) ->
        link_from_location location text = text)
    /\ (exists before after,
          forall t, link_from_location location t = before ++ t ++ after)
    /\ link_from_location
         (Some (mkLocation (Some (mkFile "/a/b.h")) 10 4)) "foo"
       = "<a href=" ++ String dquote "/a/b.h:10:4"
         ++ String dquote ">foo</a>"
    /\ link_from_location None "foo" = "foo".
Proof.
  intros location text. repeat split.
  - intros loc f -> Hf Hn. unfold link_from_location. rewrite Hf.
    apply truthy_true in Hn. rewrite Hn. simpl.
    repeat (rewrite ?append_assoc; simpl). reflexivity.
  - intros [-> | [(loc & -> & Hf) | (loc & f & -> & Hf & Hn)]];
      unfold link_from_location; simpl; try rewrite Hf; try rewrite Hn;
      reflexivity.
  - unfold link_from_location.
    destruct location as [loc|]; [destruct (file loc) as [f|]|];
      try (exists EmptyString, EmptyString; intros t; simpl;
           now rewrite append_nil_r).
    destruct (truthy (name f)).
    + exists ("<a href=" ++ String dquote (name f) ++ ":"
              ++ str_int (line loc) ++ ":" ++ str_int (column loc)
              ++ String dquote ">"), "</a>".
      intros t. simpl. repeat (rewrite ?append_assoc; simpl). reflexivity.
    + exists EmptyString, EmptyString; intros t; simpl.
      now rewrite append_nil_r.
Qed.

Lemma link_from_location_anchor_or_text_witness :
  link_from_location (Some (mkLocation (Some (mkFile "x.c")) 7 1)) "f"
  = "<a href=" ++ String dquote "x.c:7:1" ++ String dquote ">f</a>"
  /\ link_from_location (Some (mkLocation None 7 1)) "f" = "f".
Proof.
  split.
  - apply (proj1 (link_from_location_anchor_or_text
                    (Some (mkLocation (Some (mkFile "x.c")) 7 1)) "f")
                 (mkLocation (Some (mkFile "x.c")) 7 1) (mkFile "x.c"));
      [reflexivity | reflexivity | discriminate].
  - apply (proj1 (proj2 (link_from_location_anchor_or_text
                           (Some (mkLocation None 7 1)) "f"))).
    right; left. exists (mkLocation None 7 1). split; reflexivity.
Defined.

(** ** [posixpath] on sample paths *)

Example posix_dirname_samples :
  Posix.dirname "/usr/lib/libclang.so" = "/usr/lib"
  /\ Posix.dirname "libclang.so" = EmptyString
  /\ Posix.dirname "/libclang.so" = "/"
  /\ Posix.dirname "/a//b" = "/a".
Proof. repeat split. Qed.

Example posix_basename_samples :
  Posix.basename "/usr/lib/libclang.so" = "libclang.so"
  /\ Posix.basename "libclang.so" = "libclang.so"
  /\ Posix.basename "a/b/" = EmptyString.
Proof. repeat split. Qed.

Example posix_normpath_samples :
  Posix.normpath "/usr/lib/../lib64//x/./y" = "/usr/lib64/x/y"
  /\ Posix.normpath EmptyString = "."
  /\ Posix.normpath "//a/.." = "//"
  /\ Posix.normpath "///a" = "/a"
  /\ Posix.normpath "../a/../.." = "../.."
  /\ Posix.normpath "/.." = "/".
Proof. repeat split. Qed.

Example posix_join_samples :
  Posix.join "/a/b" [".."; ".."] = "/a/b/../.."
  /\ Posix.join "/a/" ["c.so"] = "/a/c.so"
  /\ Posix.join "." ["libclang.so"] = "./libclang.so"
  /\ Posix.join "/a" ["/b"] = "/b".
Proof. repeat split. Qed.

(** ** Directory derivation *)

Import ClangUtils.

Lemma endswith_dotdot_sep (x : string) : endswith (x ++ "..") "/" = false.
Proof.
  induction x as [|c x IH]; [reflexivity|].
  cbn [append endswith]. rewrite IH, orb_false_r.
  destruct x; simpl; destruct (Ascii.eqb c "/"); reflexivity.
Qed.

Lemma posix_join_up_twice (output : string) :
  Posix.join output [".."; ".."]
  = output
    ++ (if negb (truthy output) || endswith output "/"
        then EmptyString else "/")
    ++ "../..".
Proof.
  unfold Posix.join; cbn [fold_left]. unfold Posix.join_step at 2.
  change (startswith ".." Posix.sep) with false. cbv iota.
  assert (H : forall p, Posix.join_step (p ++ "..") ".." = p ++ "../..").
  { intros p. unfold Posix.join_step.
    change (startswith ".." Posix.sep) with false. cbv iota.
    unfold Posix.sep. rewrite endswith_dotdot_sep.
    destruct p; simpl; rewrite ?append_assoc; reflexivity. }
  destruct (negb (truthy output) || endswith output Posix.sep) eqn:E;
    unfold Posix.sep in *; rewrite E.
  - rewrite H. reflexivity.
  - rewrite <- (append_assoc output "/" ".."), H, append_assoc. reflexivity.
Qed.

Lemma dir_from_output_run {P : path_module} (w : world) (output : string)
    (st : state) :
  exists l,
    dir_from_output w output st
    = (Return (output_dir w output),
       mkState (libclang_name st) (log st ++ l)%list (calls st)).
Proof.
  unfold dir_from_output, output_dir, bind, emit, ret; simpl.
  destruct (String.eqb (system w) "Darwin");
    [|destruct (String.eqb (system w) "Windows");
      [|destruct (String.eqb (system w) "Linux")]];
    simpl; rewrite <- ?app_assoc; eexists; reflexivity.
Qed.

(** C8.  The value [dir_from_output] returns depends on the platform and
    on the output string only (the state is left as it was, up to the
    debug records): on macOS it is [path.join(output, '..', '..')], which
    with [posixpath] is the output with [../..] appended after a
    separator; on Windows it is [path.normpath(output)]; on Linux it is
    [path.normpath(path.dirname(output))]. *)
Theorem dir_from_output_per_platform :
  forall (w : world) (output : string) (st : state),
    (forall (P : path_module),
        (forall st', fst (dir_from_output w output st')
                     = fst (dir_from_output w output st))
        /\ libclang_name (snd (dir_from_output w output st))
           = libclang_name st
        /\ calls (snd (dir_from_output w output st)) = calls st
        /\ (system w = "Darwin" ->
            fst (dir_from_output w output st)
            = Return (Some (join output [".."; ".."])))
        /\ (system w = "Windows" ->
            fst (dir_from_output w output st)
            = Return (Some (normpath output)))
        /\ (system w = "Linux" ->
            fst (dir_from_output w output st)
            = Return (Some (normpath (dirname output)))))
    /\ (system w = "Darwin" ->
        fst (dir_from_output (P := Posix.posixpath) w output st)
        = Return (Some (output
                        ++ (if negb (truthy output) || endswith output "/"
                            then EmptyString else "/")
                        ++ "../.."))).
Proof.
  intros w output st. split.
  - intros P.
    destruct (dir_from_output_run w output st) as [l Hl].
    split; [|rewrite Hl; unfold output_dir; simpl; repeat split;
             intros ->; reflexivity].
    intros st'. destruct (dir_from_output_run w output st') as [l' Hl'].
    rewrite Hl, Hl'. reflexivity.
  - intros Hs.
    destruct (dir_from_output_run (P := Posix.posixpath) w output st)
      as [l Hl].
    rewrite Hl, <- posix_join_up_twice. unfold output_dir.
    rewrite Hs. reflexivity.
Qed.

Lemma dir_from_output_per_platform_witness :
  fst (dir_from_output (P := Posix.posixpath) Scenario.darwin_silent
         "/usr/lib/clang/include" Scenario.fresh)
  = Return (Some "/usr/lib/clang/include/../..")
  /\ fst (dir_from_output (P := Posix.posixpath) Scenario.linux
            "/usr/lib/llvm-3.8/lib/libclang.so" Scenario.fresh)
     = Return (Some "/usr/lib/llvm-3.8/lib")
  /\ fst (dir_from_output (P := Posix.posixpath) Scenario.windows
            "llvm" Scenario.fresh)
     = Return (Some "llvm").
Proof.
  split; [|split].
  - apply (proj2 (dir_from_output_per_platform Scenario.darwin_silent
                    "/usr/lib/clang/include" Scenario.fresh)).
    reflexivity.
  - apply (proj1 (dir_from_output_per_platform Scenario.linux
                    "/usr/lib/llvm-3.8/lib/libclang.so" Scenario.fresh)
                 Posix.posixpath).
    reflexivity.
  - apply (proj1 (dir_from_output_per_platform Scenario.windows
                    "llvm" Scenario.fresh)
                 Posix.posixpath).
    reflexivity.
Defined.

(** ** The search loops *)

Section Loops.

Context {P : path_module}.
Variable w : world.
Variables clang_binary version_str : string.

Local Abbreviation probe := (probe w clang_binary version_str).
Local Abbreviation queries := (queries w clang_binary version_str).
Local Abbreviation file_of := (file_of w version_str).

(** One pass through the loop body, in terms of [probe]. *)
Lemma candidate_run (c : string * string) (st : state) :
  exists l,
    candidate w clang_binary version_str (fst c) (snd c) st
    = (match probe (List.length (calls st)) c with
       | Found d => Return (Returned d)
       | NotFound => Return Continue
       | Failed e => Raise e
       end,
       mkState
         (match probe (List.length (calls st)) c with
          | Found _ => Some (file_of c)
          | _ => libclang_name st
          end)
         (log st ++ l)%list
         (calls st ++ queries [c])%list)
    /\ (probe (List.length (calls st)) c = NotFound ->
        In (WARNING, " clang could not find '" ++ file_of c ++ "'") l).
Proof.
  unfold candidate, ClangUtils.probe, ClangUtils.queries,
    ClangUtils.file_of, verify.
  cbn [flat_map]. rewrite app_nil_r.
  unfold bind at 1. unfold emit at 1. cbn iota beta.
  unfold bind at 1.
  destruct (query w clang_binary
              (candidate_file w version_str (snd c) (fst c)))
    as [inv|].
  2:{ unfold raise. cbn. rewrite app_nil_r. eexists. split;
      [reflexivity | discriminate]. }
  unfold ret at 1. cbn iota beta. unfold bind at 1.
  unfold run_check_output. cbn [calls libclang_name log].
  destruct (check_output w (List.length (calls st)) inv) as [text|e].
  2:{ eexists. split; [reflexivity | discriminate]. }
  unfold bind at 1. unfold emit at 1. cbn [calls libclang_name log].
  destruct (truthy (strip text)).
  2:{ unfold bind, emit, ret. cbn. rewrite <- !app_assoc.
      eexists. split; [reflexivity|]. intros _.
      rewrite ?in_app_iff; simpl; auto 10. }
  unfold bind at 1.
  match goal with
  | |- context [dir_from_output w ?o ?s] =>
      destruct (dir_from_output_run w o s) as [l1 ->]
  end.
  cbn [calls libclang_name log].
  destruct (output_dir w (strip text)) as [d|].
  2:{ unfold raise. rewrite <- !app_assoc.
      eexists. split; [reflexivity | discriminate]. }
  destruct (path_isdir w d).
  2:{ unfold bind, emit, ret. cbn. rewrite <- !app_assoc.
      eexists. split; [reflexivity|]. intros _.
      rewrite ?in_app_iff; simpl; auto 10. }
  destruct (path_exists w (join d _)).
  2:{ unfold bind, emit, ret. cbn. rewrite <- !app_assoc.
      eexists. split; [reflexivity|]. intros _.
      rewrite ?in_app_iff; simpl; auto 10. }
  unfold bind, emit, set_libclang_name, ret. cbn. rewrite <- !app_assoc.
  eexists. split; [reflexivity | discriminate].
Qed.

Lemma for_names_flat (suffix : string) (names : list string) (st : state) :
  for_names w clang_binary version_str suffix names st
  = for_candidates w clang_binary version_str
      (map (fun name => (suffix, name)) names) st.
Proof.
  revert st. induction names as [|name names IH]; intros st;
    [reflexivity|].
  cbn [for_names map for_candidates fst snd]. unfold bind.
  destruct (candidate w clang_binary version_str suffix name st)
    as [[[|v]|e] st']; auto.
Qed.

Lemma for_candidates_app (a b : list (string * string)) (st : state) :
  for_candidates w clang_binary version_str (a ++ b) st
  = (r <- for_candidates w clang_binary version_str a ;;
     match r with
     | Returned v => ret (Returned v)
     | Continue => for_candidates w clang_binary version_str b
     end) st.
Proof.
  revert st. induction a as [|c a IH]; intros st.
  - reflexivity.
  - cbn [app for_candidates]. unfold bind in *.
    destruct (candidate w clang_binary version_str (fst c) (snd c) st)
      as [[[|v]|e] st']; auto.
Qed.

Lemma for_suffixes_flat (names sufs : list string) (st : state) :
  dict_get possible_filenames (system w) = Some names ->
  for_suffixes w clang_binary version_str sufs st
  = for_candidates w clang_binary version_str (candidates sufs names) st.
Proof.
  intros Hn. revert st. induction sufs as [|suffix sufs IH]; intros st;
    [reflexivity|].
  cbn [for_suffixes]. unfold candidates. cbn [flat_map].
  rewrite for_candidates_app.
  unfold bind at 1. unfold subscript. rewrite Hn. unfold ret at 1.
  cbn iota beta. unfold bind. rewrite for_names_flat.
  destruct (for_candidates w clang_binary version_str
              (map (fun name => (suffix, name)) names) st)
    as [[[|v]|e] st']; auto.
Qed.

Lemma not_found_one_query (n : nat) (c : string * string) :
  probe n c = NotFound -> exists inv, queries [c] = [inv].
Proof.
  unfold ClangUtils.probe, ClangUtils.queries. cbn [flat_map].
  destruct (query w clang_binary (file_of c)) as [inv|];
    [|discriminate].
  intros _. exists inv. reflexivity.
Qed.

Lemma queries_app (a b : list (string * string)) :
  queries (a ++ b) = (queries a ++ queries b)%list.
Proof. unfold ClangUtils.queries. apply flat_map_app. Qed.

(** The flat loop, in terms of [scan]. *)
Lemma for_candidates_scan (cs : list (string * string)) (st : state) :
  let s := scan w clang_binary version_str (List.length (calls st)) cs in
  exists l,
    for_candidates w clang_binary version_str cs st
    = (match snd s with
       | Some (_, Found d) => Return (Returned d)
       | Some (_, Failed e) => Raise e
       | _ => Return Continue
       end,
       mkState
         (match snd s with
          | Some (c, Found _) => Some (file_of c)
          | _ => libclang_name st
          end)
         (log st ++ l)%list
         (calls st ++ queries (queried s))%list).
Proof.
  revert st. induction cs as [|c cs IH]; intros st s.
  - exists []. subst s. cbn. rewrite !app_nil_r. now destruct st.
  - subst s. cbn [for_candidates scan]. unfold bind.
    destruct (candidate_run c st) as (l & -> & _).
    destruct (probe (List.length (calls st)) c) as [d| |e] eqn:Hp.
    + exists l. reflexivity.
    + destruct (not_found_one_query _ _ Hp) as [inv Hq].
      match goal with
      | |- context [for_candidates _ _ _ cs ?s'] =>
          destruct (IH s') as [l' ->]
      end.
      exists (l ++ l')%list.
      cbn [calls libclang_name log]. rewrite Hq.
      rewrite length_app. cbn [List.length]. rewrite Nat.add_1_r.
      destruct (scan w clang_binary version_str
                  (S (List.length (calls st))) cs) as [passed hit].
      unfold queried. cbn [fst snd].
      rewrite <- app_comm_cons.
      match goal with
      | |- context [queries (c :: ?x)] =>
          change (queries (c :: x)) with (queries ([c] ++ x))
      end.
      rewrite (queries_app [c]), Hq, <- !app_assoc. reflexivity.
    + exists l. reflexivity.
Qed.

Lemma scan_passes_all (cs : list (string * string)) (n : nat) :
  (forall i c, nth_error cs i = Some c -> probe (n + i) c = NotFound) ->
  scan w clang_binary version_str n cs = (cs, None).
Proof.
  revert n. induction cs as [|c cs IH]; intros n H; [reflexivity|].
  cbn [scan]. rewrite <- (Nat.add_0_r n) at 1.
  rewrite (H 0 c eq_refl), IH; [reflexivity|].
  intros i c' Hi. rewrite Nat.add_succ_comm. apply (H (S i)). exact Hi.
Qed.

Lemma scan_stops_at (pre post : list (string * string))
    (c : string * string) (v : verdict) (n : nat) :
  (forall i c', nth_error pre i = Some c' -> probe (n + i) c' = NotFound) ->
  probe (n + List.length pre) c = v ->
  v <> NotFound ->
  scan w clang_binary version_str n (pre ++ c :: post) = (pre, Some (c, v)).
Proof.
  revert n. induction pre as [|c0 pre IH]; intros n H Hc Hv.
  - cbn [app scan]. cbn [List.length] in Hc. rewrite Nat.add_0_r in Hc.
    rewrite Hc. destruct v; congruence.
  - cbn [app scan]. rewrite <- (Nat.add_0_r n) at 1.
    rewrite (H 0 c0 eq_refl), IH; [reflexivity| | |exact Hv].
    + intros i c' Hi. rewrite Nat.add_succ_comm. apply (H (S i)).
      exact Hi.
    + rewrite Nat.add_succ_comm. exact Hc.
Qed.

End Loops.

Section Entry.

Context {P : path_module}.
Variable w : world.
Variable clang_binary : string.

Local Abbreviation version_str := (slice_to_neg 2 (CLANG_VERSION w)).

(** [search] on a platform the two dicts know. *)
Lemma search_run (sufs names : list string) (st : state) :
  dict_get suffixes (system w) = Some sufs ->
  dict_get possible_filenames (system w) = Some names ->
  let s := scan w clang_binary version_str (List.length (calls st))
             (candidates sufs names) in
  exists l,
    search w clang_binary st
    = (match snd s with
       | Some (_, Found d) => Return (Some d)
       | Some (_, Failed e) => Raise e
       | _ => Return None
       end,
       mkState
         (match snd s with
          | Some (c, Found _) => Some (file_of w version_str c)
          | _ => libclang_name st
          end)
         (log st ++ l)%list
         (calls st
          ++ queries w clang_binary version_str (queried s))%list)
    /\ (snd s = None -> In (ERROR, " no libclang found at all") l).
Proof.
  intros Hs Hn s. unfold search, subscript. rewrite Hs.
  unfold bind at 1. unfold ret at 1. cbn iota beta. unfold bind at 1.
  rewrite (for_suffixes_flat w clang_binary _ names sufs st Hn).
  destruct (for_candidates_scan w clang_binary version_str
              (candidates sufs names) st) as [l Hl].
  rewrite Hl. fold s.
  destruct (snd s) as [[c [d| |e]]|].
  - exists l. split; [reflexivity | discriminate].
  - unfold bind, emit, ret. cbn. rewrite <- app_assoc.
    eexists. split; [reflexivity | discriminate].
  - exists l. split; [reflexivity | discriminate].
  - unfold bind, emit, ret. cbn. rewrite <- app_assoc.
    eexists. split; [reflexivity|]. intros _.
    apply in_or_app. right. left. reflexivity.
Qed.

(** [search] on any other platform. *)
Lemma search_unknown_platform (st : state) :
  dict_get suffixes (system w) = None ->
  search w clang_binary st = (Raise (KeyError (system w)), st).
Proof.
  intros Hs. unfold search, subscript. rewrite Hs. reflexivity.
Qed.

(** The entry point: the hint is used, or the search is run. *)
Lemma find_libclang_dir_run (libclang_path : string) (st : state) :
  exists l,
    find_libclang_dir w clang_binary libclang_path st
    = if hint_usable w libclang_path
      then (Return (Some (dirname libclang_path)),
            mkState (Some (basename libclang_path))
                    (log st ++ l
                     ++ [(INFO, (" using user-provided libclang: '"
                                 ++ libclang_path ++ "'")%string)])%list
                    (calls st))
      else search w clang_binary
             (mkState (libclang_name st) (log st ++ l)%list (calls st)).
Proof.
  unfold find_libclang_dir, hint_usable, try_load_from_user_hint.
  unfold bind at 1 2 3 4. unfold emit at 1 2 3 4.
  cbn [calls libclang_name log]. rewrite <- !app_assoc.
  eexists.
  destruct (truthy libclang_path); [|reflexivity].
  destruct (path_exists w libclang_path); [|reflexivity].
  cbn [truthy_opt andb].
  destruct (truthy (dirname libclang_path)); [|reflexivity].
  unfold bind, emit, set_libclang_name, ret. cbn.
  rewrite <- !app_assoc. reflexivity.
Qed.

End Entry.

(** ** The discovery entry point *)

Section EntryByScan.

Context {P : path_module}.
Variable w : world.
Variable clang_binary : string.

Local Abbreviation version_str := (slice_to_neg 2 (CLANG_VERSION w)).

Lemma platform_candidates_inv (cs : list (string * string)) :
  platform_candidates w = Some cs ->
  exists sufs names,
    dict_get suffixes (system w) = Some sufs
    /\ dict_get possible_filenames (system w) = Some names
    /\ cs = candidates sufs names.
Proof.
  unfold platform_candidates.
  destruct (dict_get suffixes (system w)) as [sufs|]; [|discriminate].
  destruct (dict_get possible_filenames (system w)) as [names|];
    [|discriminate].
  intros [= <-]. now exists sufs, names.
Qed.

(** When the hint is not used, the call is the scan of the platform's
    candidates. *)
Lemma find_libclang_dir_scan (libclang_path : string) (st : state)
    (cs : list (string * string)) :
  hint_usable w libclang_path = false ->
  platform_candidates w = Some cs ->
  let s := scan w clang_binary version_str (List.length (calls st)) cs in
  let r := find_libclang_dir w clang_binary libclang_path st in
  fst r = match snd s with
          | Some (_, Found d) => Return (Some d)
          | Some (_, Failed e) => Raise e
          | _ => Return None
          end
  /\ libclang_name (snd r)
     = match snd s with
       | Some (c, Found _) => Some (file_of w version_str c)
       | _ => libclang_name st
       end
  /\ calls (snd r)
     = (calls st ++ queries w clang_binary version_str (queried s))%list
  /\ (snd s = None ->
      In (ERROR, " no libclang found at all") (log (snd r))).
Proof.
  intros Hh Hc s r.
  destruct (platform_candidates_inv cs Hc) as (sufs & names & Hs & Hn & ->).
  destruct (find_libclang_dir_run w clang_binary libclang_path st)
    as [l0 H0].
  rewrite Hh in H0.
  destruct (search_run w clang_binary sufs names
              (mkState (libclang_name st) (log st ++ l0)%list (calls st))
              Hs Hn) as (l & H1 & H2).
  cbn [calls libclang_name log] in H1, H2.
  subst r. rewrite H0, H1. fold s.
  cbn [fst snd calls libclang_name log].
  repeat split; try reflexivity.
  intros Hnone. apply in_or_app. right. apply H2. exact Hnone.
Qed.

End EntryByScan.

(** ** Candidates that are passed over *)

Section Passing.

Context {P : path_module}.
Variable w : world.
Variable clang_binary : string.

Local Abbreviation version_str := (slice_to_neg 2 (CLANG_VERSION w)).

(** A platform that has a command for one file has one for every
    file. *)
Lemma query_for_every_file (file file' : string) (inv : invocation) :
  query w clang_binary file = Some inv ->
  exists inv', query w clang_binary file' = Some inv'.
Proof.
  unfold query.
  destruct (String.eqb (system w) "Darwin"); [eauto|].
  destruct (String.eqb (system w) "Windows"); [eauto|].
  destruct (String.eqb (system w) "Linux"); [eauto | discriminate].
Qed.

(** The checks on the output of an invocation that succeeded fail in
    one of three ways. *)
Lemma verify_not_found (file text : string) (inv : invocation) :
  query w clang_binary file = Some inv ->
  verify w file text = NotFound
  <-> (strip text = EmptyString
       \/ exists d,
            output_dir w (strip text) = Some d
            /\ (path_isdir w d = false
                \/ path_exists w (join d [file]) = false)).
Proof.
  intros Hq. unfold verify.
  destruct (truthy (strip text)) eqn:Ht.
  - apply truthy_true in Ht.
    destruct (output_dir w (strip text)) as [d|] eqn:Hd.
    + destruct (path_isdir w d) eqn:Hi;
        [destruct (path_exists w (join d [file])) eqn:He|].
      * split; [discriminate|].
        intros [K | (d' & [= <-] & [K | K])]; congruence.
      * split; [|reflexivity]. intros _. right. exists d. auto.
      * split; [|reflexivity]. intros _. right. exists d. auto.
    + split; [discriminate|].
      intros [K | (d' & K & _)]; congruence.
  - apply truthy_false in Ht. split; auto.
Qed.

(** A scan goes through the candidates that are not found. *)
Lemma scan_after_not_found (v : string) (pre rest : list (string * string))
    (n : nat) :
  (forall i c, nth_error pre i = Some c ->
               probe w clang_binary v (n + i) c = NotFound) ->
  scan w clang_binary v n (pre ++ rest)
  = ((pre ++ fst (scan w clang_binary v (n + List.length pre) rest))%list,
     snd (scan w clang_binary v (n + List.length pre) rest)).
Proof.
  revert n. induction pre as [|c0 pre IH]; intros n H.
  - cbn [app List.length]. rewrite Nat.add_0_r.
    now destruct (scan w clang_binary v n rest).
  - cbn [app scan]. rewrite <- (Nat.add_0_r n) at 1.
    rewrite (H 0 c0 eq_refl), IH.
    + cbn [List.length]. rewrite Nat.add_succ_comm. reflexivity.
    + intros i c' Hi. rewrite Nat.add_succ_comm. apply (H (S i)).
      exact Hi.
Qed.

(** A scan goes past a candidate that is not found. *)
Lemma scan_past_not_found (v : string) (c : string * string)
    (rest : list (string * string)) (n : nat) :
  probe w clang_binary v n c = NotFound ->
  scan w clang_binary v n (c :: rest)
  = (c :: fst (scan w clang_binary v (S n) rest),
     snd (scan w clang_binary v (S n) rest)).
Proof.
  intros Hp. cbn [scan]. rewrite Hp.
  now destruct (scan w clang_binary v (S n) rest).
Qed.

(** The first candidate of a scan is queried. *)
Lemma queried_head (v : string) (n : nat) (c : string * string)
    (rest : list (string * string)) :
  exists later, queried (scan w clang_binary v n (c :: rest)) = c :: later.
Proof.
  cbn [scan].
  destruct (probe w clang_binary v n c).
  - eexists. reflexivity.
  - destruct (scan w clang_binary v (S n) rest) as [passed hit].
    eexists. unfold queried. cbn [fst snd app]. reflexivity.
  - eexists. reflexivity.
Qed.

(** The loop only adds to the log. *)
Lemma for_candidates_keeps_log (v : string) (cs : list (string * string))
    (st : state) (x : level * string) :
  In x (log st) ->
  In x (log (snd (for_candidates w clang_binary v cs st))).
Proof.
  intros Hx.
  destruct (for_candidates_scan w clang_binary v cs st) as [l ->].
  cbn [snd log]. apply in_or_app. left. exact Hx.
Qed.

(** Every candidate the loop passes over is logged with the warning. *)
Lemma for_candidates_warns (v : string) (cs : list (string * string))
    (st : state) (c : string * string) :
  In c (fst (scan w clang_binary v (List.length (calls st)) cs)) ->
  In (WARNING, " clang could not find '" ++ file_of w v c ++ "'")
     (log (snd (for_candidates w clang_binary v cs st))).
Proof.
  revert st. induction cs as [|c0 cs IH]; intros st.
  - intros [].
  - cbn [scan for_candidates]. unfold bind.
    destruct (candidate_run w clang_binary v c0 st) as (l & Hc & Hw).
    rewrite Hc.
    destruct (probe w clang_binary v (List.length (calls st)) c0)
      as [d| |e] eqn:Hp; try (intros []).
    destruct (not_found_one_query w clang_binary v _ _ Hp) as [inv Hq].
    rewrite Hq.
    match goal with
    | |- context [for_candidates _ _ _ cs ?s'] =>
        specialize (IH s'); pose proof (for_candidates_keeps_log v cs s')
          as Hk
    end.
    cbn [calls log] in IH, Hk.
    rewrite length_app in IH. cbn [List.length] in IH.
    rewrite Nat.add_1_r in IH.
    destruct (scan w clang_binary v (S (List.length (calls st))) cs)
      as [passed hit].
    cbn [fst] in *. intros [<- | Hin].
    + apply Hk. apply in_or_app. right. apply Hw. reflexivity.
    + apply IH. exact Hin.
Qed.

(** The warnings of the loop are in the log of the call. *)
Lemma find_libclang_dir_warns (libclang_path : string) (st : state)
    (cs : list (string * string)) (c : string * string) :
  hint_usable w libclang_path = false ->
  platform_candidates w = Some cs ->
  In c (fst (scan w clang_binary version_str (List.length (calls st)) cs)) ->
  In (WARNING, " clang could not find '" ++ file_of w version_str c ++ "'")
     (log (snd (find_libclang_dir w clang_binary libclang_path st))).
Proof.
  intros Hh Hc Hin.
  destruct (platform_candidates_inv w cs Hc) as (sufs & names & Hs & Hn & ->).
  destruct (find_libclang_dir_run w clang_binary libclang_path st)
    as [l0 H0].
  rewrite Hh in H0. rewrite H0.
  unfold search, subscript. rewrite Hs.
  unfold bind at 1. unfold ret at 1. cbn iota beta. unfold bind at 1.
  rewrite (for_suffixes_flat w clang_binary _ names sufs _ Hn).
  pose proof (for_candidates_warns version_str (candidates sufs names)
                (mkState (libclang_name st) (log st ++ l0)%list (calls st))
                c Hin) as Hw.
  destruct (for_candidates w clang_binary version_str
              (candidates sufs names)
              (mkState (libclang_name st) (log st ++ l0)%list (calls st)))
    as [[[|d]|e] st2]; cbn [snd] in Hw |- *.
  - unfold bind, emit, ret. cbn [snd log]. apply in_or_app. left. exact Hw.
  - exact Hw.
  - exact Hw.
Qed.

End Passing.

Import Scenario.

Lemma same_platforms (sys : string) (sufs : list string) :
  dict_get suffixes sys = Some sufs ->
  exists names, dict_get possible_filenames sys = Some names.
Proof.
  unfold suffixes, possible_filenames. cbn [dict_get].
  destruct (String.eqb "Windows" sys); [eauto|].
  destruct (String.eqb "Linux" sys); [eauto|].
  destruct (String.eqb "Darwin" sys); [eauto|]. discriminate.
Qed.

Lemma scan_hit {P : path_module} (w : world)
    (clang_binary version_str : string) (cs : list (string * string))
    (n : nat) (c : string * string) (v : verdict) :
  snd (scan w clang_binary version_str n cs) = Some (c, v) ->
  probe w clang_binary version_str
        (n + List.length (fst (scan w clang_binary version_str n cs))) c = v
  /\ In c cs.
Proof.
  revert n. induction cs as [|c0 cs IH]; intros n; [discriminate|].
  cbn [scan].
  destruct (probe w clang_binary version_str n c0) eqn:Hp.
  - cbn. intros [= <- <-]. rewrite Nat.add_0_r. auto.
  - destruct (scan w clang_binary version_str (S n) cs) as [passed hit] eqn:Hs.
    cbn [fst snd]. intros Hh. specialize (IH (S n)). rewrite Hs in IH.
    destruct (IH Hh) as [H1 H2]. cbn [fst List.length] in *.
    rewrite Nat.add_succ_r. split; [exact H1 | now right].
  - cbn. intros [= <- <-]. rewrite Nat.add_0_r. auto.
Qed.

(** *** The user hint *)

(** C2, the claim as stated fails: a hint that names an existing file
    without a directory part has the empty string as its [dirname], which
    counts as "not found"; the platform search runs and the compiler is
    invoked. *)
Lemma user_hint_without_directory_is_searched :
  "libclang.so" <> EmptyString
  /\ path_exists linux_cwd "libclang.so" = true
  /\ Posix.dirname "libclang.so" = EmptyString
  /\ fst (find_libclang_dir (P := Posix.posixpath) linux_cwd
            "clang" "libclang.so" fresh)
     = Return (Some ".")
  /\ fst (find_libclang_dir (P := Posix.posixpath) linux_cwd
            "clang" "libclang.so" fresh)
     <> Return (Some (Posix.dirname "libclang.so"))
  /\ calls (snd (find_libclang_dir (P := Posix.posixpath) linux_cwd
                   "clang" "libclang.so" fresh))
     = [ mkInvocation ["clang"; "-print-file-name=libclang-3.8.so"]
                      None None None;
         mkInvocation ["clang"; "-print-file-name=libclang.so"]
                      None None None ].
Proof.
  split; [discriminate|].
  split; [reflexivity|].
  split; [reflexivity|].
  split; [vm_compute; reflexivity|].
  split; [vm_compute; discriminate | vm_compute; reflexivity].
Qed.

(** C2 (amended).  For every non-empty user hint that refers to an
    existing path and has a non-empty directory part, [find_libclang_dir]
    returns that directory, records the basename of the hint as
    [libclang_name], and invokes no compiler, whatever the platform. *)
Theorem user_hint_with_directory_short_circuits :
  forall (P : path_module) (w : world)
         (clang_binary libclang_path : string) (st : state),
    libclang_path <> EmptyString ->
    path_exists w libclang_path = true ->
    dirname libclang_path <> EmptyString ->
    fst (find_libclang_dir w clang_binary libclang_path st)
    = Return (Some (dirname libclang_path))
    /\ libclang_name (snd (find_libclang_dir w clang_binary libclang_path st))
       = Some (basename libclang_path)
    /\ calls (snd (find_libclang_dir w clang_binary libclang_path st))
       = calls st.
Proof.
  intros P w clang_binary libclang_path st Hp He Hd.
  destruct (find_libclang_dir_run w clang_binary libclang_path st)
    as [l ->].
  unfold hint_usable, try_load_from_user_hint. rewrite He.
  apply truthy_true in Hp, Hd. cbn [truthy_opt]. rewrite Hp, Hd.
  repeat split.
Qed.

Lemma user_hint_with_directory_short_circuits_witness :
  fst (find_libclang_dir (P := Posix.posixpath) linux
         "clang" llvm_libclang fresh)
  = Return (Some llvm_lib)
  /\ libclang_name (snd (find_libclang_dir (P := Posix.posixpath) linux
                           "clang" llvm_libclang fresh))
     = Some "libclang.so"
  /\ calls (snd (find_libclang_dir (P := Posix.posixpath) linux
                   "clang" llvm_libclang fresh))
     = [].
Proof.
  apply (user_hint_with_directory_short_circuits
           Posix.posixpath linux "clang" llvm_libclang fresh);
    [discriminate | reflexivity | discriminate].
Defined.

(** *** Failing invocations *)

(** C1, the claim as stated fails: the first invocation exits with
    status 1, the second candidate would verify, and the call raises the
    error of the first invocation without querying the second. *)
Lemma failing_invocation_escapes :
  check_output linux_first_fails 0
    (mkInvocation ["clang"; "-print-file-name=libclang-3.8.so"]
                  None None None)
  = Fails (CalledProcessError 1)
  /\ probe (P := Posix.posixpath) linux_first_fails "clang" "3.8" 1
           (".so", "libclang")
     = Found llvm_lib
  /\ fst (find_libclang_dir (P := Posix.posixpath) linux_first_fails
            "clang" EmptyString fresh)
     = Raise (CalledProcessError 1)
  /\ calls (snd (find_libclang_dir (P := Posix.posixpath) linux_first_fails
                   "clang" EmptyString fresh))
     = [ mkInvocation ["clang"; "-print-file-name=libclang-3.8.so"]
                      None None None ].
Proof.
  split; [reflexivity|].
  split; [vm_compute; reflexivity|].
  split; vm_compute; reflexivity.
Qed.

(** C1 (amended).  When the user hint is not used and the invocation for
    a candidate fails, every candidate before it having been queried and
    not found, the error of that invocation is raised by
    [find_libclang_dir]: no later candidate is queried and
    [libclang_name] is left as it was.  A candidate whose invocation
    succeeds is passed over exactly when its output does not verify,
    that is when the output is empty once stripped, or the directory
    derived from it is no directory, or the file does not exist in that
    directory: the warning [clang could not find] is logged for it,
    [libclang_name] is left as it was, and the candidate after it is
    queried. *)
Theorem invocation_failure_propagates :
  forall (P : path_module) (w : world) (clang_binary : string),
    (forall (libclang_path : string) (st : state)
            (pre post : list (string * string)) (c : string * string)
            (inv : invocation) (e : exn),
        hint_usable w libclang_path = false ->
        platform_candidates w = Some (pre ++ c :: post)%list ->
        (forall i c', nth_error pre i = Some c' ->
                      probe w clang_binary (slice_to_neg 2 (CLANG_VERSION w))
                            (List.length (calls st) + i) c' = NotFound) ->
        query w clang_binary
              (file_of w (slice_to_neg 2 (CLANG_VERSION w)) c) = Some inv ->
        check_output w (List.length (calls st) + List.length pre) inv
        = Fails e ->
        fst (find_libclang_dir w clang_binary libclang_path st) = Raise e
        /\ libclang_name
             (snd (find_libclang_dir w clang_binary libclang_path st))
           = libclang_name st
        /\ calls (snd (find_libclang_dir w clang_binary libclang_path st))
           = (calls st
              ++ queries w clang_binary (slice_to_neg 2 (CLANG_VERSION w)) pre
              ++ [inv])%list)
    /\ (forall (version_str suffix name : string) (st : state)
               (inv : invocation) (text : string),
           query w clang_binary (candidate_file w version_str name suffix)
           = Some inv ->
           check_output w (List.length (calls st)) inv = Output text ->
           (verify w (candidate_file w version_str name suffix) text
            = NotFound
            <-> (strip text = EmptyString
                 \/ exists d,
                      output_dir w (strip text) = Some d
                      /\ (path_isdir w d = false
                          \/ path_exists
                               w (join d [candidate_file w version_str
                                            name suffix])
                             = false)))
           /\ (fst (candidate w clang_binary version_str suffix name st)
               = Return Continue
               <-> verify w (candidate_file w version_str name suffix) text
                   = NotFound)
           /\ (verify w (candidate_file w version_str name suffix) text
               = NotFound ->
               libclang_name
                 (snd (candidate w clang_binary version_str suffix name st))
               = libclang_name st
               /\ calls
                    (snd (candidate w clang_binary version_str suffix name st))
                  = (calls st ++ [inv])%list
               /\ In (WARNING,
                      " clang could not find '"
                      ++ candidate_file w version_str name suffix ++ "'")
                     (log (snd (candidate w clang_binary version_str
                                  suffix name st)))))
    /\ (forall (libclang_path : string) (st : state)
               (pre post : list (string * string))
               (c next : string * string)
               (inv : invocation) (text : string),
           hint_usable w libclang_path = false ->
           platform_candidates w = Some (pre ++ c :: next :: post)%list ->
           (forall i c', nth_error pre i = Some c' ->
                         probe w clang_binary
                               (slice_to_neg 2 (CLANG_VERSION w))
                               (List.length (calls st) + i) c' = NotFound) ->
           query w clang_binary
                 (file_of w (slice_to_neg 2 (CLANG_VERSION w)) c) = Some inv ->
           check_output w (List.length (calls st) + List.length pre) inv
           = Output text ->
           verify w (file_of w (slice_to_neg 2 (CLANG_VERSION w)) c) text
           = NotFound ->
           exists (inv' : invocation) (later : list invocation),
             query w clang_binary
                   (file_of w (slice_to_neg 2 (CLANG_VERSION w)) next)
             = Some inv'
             /\ calls (snd (find_libclang_dir w clang_binary libclang_path st))
                = (calls st
                   ++ queries w clang_binary
                        (slice_to_neg 2 (CLANG_VERSION w)) pre
                   ++ inv :: inv' :: later)%list
             /\ In (WARNING,
                    " clang could not find '"
                    ++ file_of w (slice_to_neg 2 (CLANG_VERSION w)) c ++ "'")
                   (log (snd (find_libclang_dir w clang_binary
                                libclang_path st)))).
Proof.
  intros P w clang_binary. split; [|split].
  - intros libclang_path st pre post c inv e Hh Hc Hpre Hq Hf.
    assert (Hp : probe w clang_binary (slice_to_neg 2 (CLANG_VERSION w))
                   (List.length (calls st) + List.length pre) c = Failed e).
    { unfold probe. rewrite Hq, Hf. reflexivity. }
    destruct (find_libclang_dir_scan w clang_binary libclang_path st _ Hh Hc)
      as (H1 & H2 & H3 & _).
    rewrite (scan_stops_at w clang_binary _ pre post c (Failed e) _ Hpre Hp)
      in H1, H2, H3 by discriminate.
    cbn [fst snd] in H1, H2, H3. unfold queried in H3. cbn [fst snd] in H3.
    rewrite queries_app in H3. unfold queries at 2 in H3.
    cbn [flat_map] in H3. rewrite Hq in H3. cbn [app] in H3.
    auto.
  - intros version_str suffix name st inv text Hq Ho.
    destruct (candidate_run w clang_binary version_str (suffix, name) st)
      as (l & Hc & Hw).
    cbn [fst snd] in Hc.
    assert (Hp : probe w clang_binary version_str (List.length (calls st))
                   (suffix, name)
                 = verify w (candidate_file w version_str name suffix) text).
    { unfold probe, file_of. cbn [fst snd]. rewrite Hq, Ho. reflexivity. }
    rewrite Hp in Hc, Hw. rewrite Hc. cbn [fst snd calls libclang_name log].
    split; [exact (verify_not_found w clang_binary _ text inv Hq)|].
    split.
    + destruct (verify w (candidate_file w version_str name suffix) text);
        split; congruence.
    + intros Hv. rewrite Hv.
      unfold queries, file_of. cbn [flat_map fst snd]. rewrite Hq.
      repeat split. apply in_or_app. right. apply (Hw Hv).
  - intros libclang_path st pre post c next inv text Hh Hc Hpre Hq Ho Hv.
    assert (Hp : probe w clang_binary (slice_to_neg 2 (CLANG_VERSION w))
                   (List.length (calls st) + List.length pre) c = NotFound).
    { unfold probe. rewrite Hq, Ho. exact Hv. }
    destruct (query_for_every_file w clang_binary _
                (file_of w (slice_to_neg 2 (CLANG_VERSION w)) next) inv Hq)
      as [inv' Hq'].
    destruct (find_libclang_dir_scan w clang_binary libclang_path st _ Hh Hc)
      as (_ & _ & H3 & _).
    pose proof (find_libclang_dir_warns w clang_binary libclang_path st _ c
                  Hh Hc) as Hw.
    rewrite (scan_after_not_found w clang_binary _ pre _ _ Hpre) in H3, Hw.
    rewrite (scan_past_not_found w clang_binary _ c _ _ Hp) in H3, Hw.
    destruct (queried_head w clang_binary
                (slice_to_neg 2 (CLANG_VERSION w))
                (S (List.length (calls st) + List.length pre)) next post)
      as [later Hl].
    destruct (scan w clang_binary (slice_to_neg 2 (CLANG_VERSION w))
                (S (List.length (calls st) + List.length pre))
                (next :: post)) as [passed hit].
    unfold queried in H3, Hl. cbn [fst snd] in H3, Hw, Hl.
    exists inv', (queries w clang_binary
                    (slice_to_neg 2 (CLANG_VERSION w)) later).
    split; [exact Hq'|]. split.
    + rewrite H3. rewrite <- app_assoc, <- app_comm_cons, Hl.
      rewrite queries_app. unfold queries at 2. cbn [flat_map].
      rewrite Hq, Hq'. cbn [app]. reflexivity.
    + apply Hw. apply in_or_app. right. left. reflexivity.
Qed.

Lemma invocation_failure_propagates_witness :
  (fst (find_libclang_dir (P := Posix.posixpath) linux_first_fails
          "clang" EmptyString fresh)
   = Raise (CalledProcessError 1)
   /\ libclang_name
        (snd (find_libclang_dir (P := Posix.posixpath) linux_first_fails
                "clang" EmptyString fresh))
      = None)
  /\ (fst (candidate (P := Posix.posixpath) linux
             "clang" "3.8" ".so" "libclang-$version" fresh)
      = Return Continue
      /\ In (WARNING, " clang could not find 'libclang-3.8.so'")
            (log (snd (candidate (P := Posix.posixpath) linux
                         "clang" "3.8" ".so" "libclang-$version" fresh))))
  /\ (exists later,
        calls (snd (find_libclang_dir (P := Posix.posixpath) linux_silent
                      "clang" EmptyString fresh))
        = mkInvocation ["clang"; "-print-file-name=libclang-3.8.so"]
                       None None None
          :: mkInvocation ["clang"; "-print-file-name=libclang.so"]
                          None None None
          :: later)
     /\ In (WARNING, " clang could not find 'libclang-3.8.so'")
           (log (snd (find_libclang_dir (P := Posix.posixpath) linux_silent
                        "clang" EmptyString fresh))).
Proof.
  pose proof (invocation_failure_propagates
                Posix.posixpath linux_first_fails "clang") as (H & _ & _).
  pose proof (invocation_failure_propagates
                Posix.posixpath linux "clang") as (_ & K & _).
  pose proof (invocation_failure_propagates
                Posix.posixpath linux_silent "clang") as (_ & _ & L).
  specialize (H EmptyString fresh []
                [(".so", "libclang"); (".so.1", "libclang-$version");
                 (".so.1", "libclang")]
                (".so", "libclang-$version")
                (mkInvocation ["clang"; "-print-file-name=libclang-3.8.so"]
                              None None None)
                (CalledProcessError 1)
                eq_refl eq_refl).
  specialize (K "3.8" ".so" "libclang-$version" fresh
                (mkInvocation ["clang"; "-print-file-name=libclang-3.8.so"]
                              None None None)
                ("libclang-3.8.so" ++ String nl EmptyString)
                eq_refl eq_refl).
  destruct K as (_ & K1 & K2).
  assert (Hv : verify (P := Posix.posixpath) linux
                 (candidate_file linux "3.8" "libclang-$version" ".so")
                 ("libclang-3.8.so" ++ String nl EmptyString)
               = NotFound) by (vm_compute; reflexivity).
  assert (Hn : forall i c',
             nth_error (@nil (string * string)) i = Some c' ->
             probe (P := Posix.posixpath) linux_silent "clang"
                   (slice_to_neg 2 (CLANG_VERSION linux_silent))
                   (List.length (calls fresh) + i) c' = NotFound)
    by (intros [|i] c' Hi; discriminate Hi).
  assert (Hq : query linux_silent "clang"
                 (file_of linux_silent
                    (slice_to_neg 2 (CLANG_VERSION linux_silent))
                    (".so", "libclang-$version"))
               = Some (mkInvocation
                         ["clang"; "-print-file-name=libclang-3.8.so"]
                         None None None)) by (vm_compute; reflexivity).
  assert (Hs : verify (P := Posix.posixpath) linux_silent
                 (file_of linux_silent
                    (slice_to_neg 2 (CLANG_VERSION linux_silent))
                    (".so", "libclang-$version"))
                 (String nl EmptyString)
               = NotFound) by (vm_compute; reflexivity).
  specialize (L EmptyString fresh []
                [(".so.1", "libclang-$version"); (".so.1", "libclang")]
                (".so", "libclang-$version") (".so", "libclang")
                (mkInvocation ["clang"; "-print-file-name=libclang-3.8.so"]
                              None None None)
                (String nl EmptyString)
                eq_refl eq_refl Hn Hq eq_refl Hs).
  destruct L as (inv' & later & Hq' & Hc & Hw).
  vm_compute in Hq'. injection Hq' as <-.
  split; [|split; [|split]].
  - split; apply H; try reflexivity; intros [|i] c' Hi; discriminate Hi.
  - split; [apply K1; exact Hv | apply (K2 Hv)].
  - exists later. exact Hc.
  - exact Hw.
Defined.

(** *** Order of the candidates *)

(** C6, the claim as stated fails: only the pair [(.so, libclang)]
    verifies, the invocation for the pair before it exits with status 1,
    and the call raises that error instead of returning the directory of
    the verifying pair. *)
Lemma first_verified_unreached_after_failure :
  platform_candidates linux_one_answer
  = Some [(".so", "libclang-$version"); (".so", "libclang");
          (".so.1", "libclang-$version"); (".so.1", "libclang")]
  /\ (forall n,
        probe (P := Posix.posixpath) linux_one_answer "clang" "3.8" n
              (".so", "libclang")
        = Found llvm_lib)
  /\ (forall n c,
        In c [(".so", "libclang-$version"); (".so.1", "libclang-$version");
              (".so.1", "libclang")] ->
        probe (P := Posix.posixpath) linux_one_answer "clang" "3.8" n c
        = Failed (CalledProcessError 1))
  /\ fst (find_libclang_dir (P := Posix.posixpath) linux_one_answer
            "clang" EmptyString fresh)
     = Raise (CalledProcessError 1)
  /\ fst (find_libclang_dir (P := Posix.posixpath) linux_one_answer
            "clang" EmptyString fresh)
     <> Return (Some llvm_lib).
Proof.
  split; [reflexivity|].
  split; [intros n; vm_compute; reflexivity|].
  split; [intros n c [<-|[<-|[<-|[]]]]; vm_compute; reflexivity|].
  split; [vm_compute; reflexivity | vm_compute; discriminate].
Qed.

(** C6 (amended).  The candidates are enumerated with the suffix list as
    the outer loop and the basename list as the inner loop, both in the
    order the platform declares.  When the user hint is not used, a pair
    verifies when it is reached, and every pair before it in that order
    was queried without a failing invocation and did not verify, then the
    pairs before it are queried first and in order, the call returns the
    directory of that pair and records its file as [libclang_name], and
    no pair after it is queried. *)
Theorem search_returns_first_verified :
  (forall (suffix : string) (sufs names : list string),
      candidates (suffix :: sufs) names
      = (map (fun name => (suffix, name)) names ++ candidates sufs names)%list)
  /\ (forall (w : world),
         system w = "Linux" ->
         platform_candidates w
         = Some [(".so", "libclang-$version"); (".so", "libclang");
                 (".so.1", "libclang-$version"); (".so.1", "libclang")])
  /\ (forall (w : world),
         system w = "Darwin" ->
         platform_candidates w = Some [(".dylib", "libclang")])
  /\ (forall (w : world),
         system w = "Windows" ->
         platform_candidates w
         = Some [(".dll", "libclang"); (".dll", "clang");
                 (".lib", "libclang"); (".lib", "clang")])
  /\ (forall (P : path_module) (w : world)
             (clang_binary libclang_path : string) (st : state)
             (pre post : list (string * string)) (c : string * string)
             (d : string),
         hint_usable w libclang_path = false ->
         platform_candidates w = Some (pre ++ c :: post)%list ->
         (forall i c', nth_error pre i = Some c' ->
                       probe w clang_binary
                             (slice_to_neg 2 (CLANG_VERSION w))
                             (List.length (calls st) + i) c' = NotFound) ->
         probe w clang_binary (slice_to_neg 2 (CLANG_VERSION w))
               (List.length (calls st) + List.length pre) c = Found d ->
         fst (find_libclang_dir w clang_binary libclang_path st)
         = Return (Some d)
         /\ libclang_name
              (snd (find_libclang_dir w clang_binary libclang_path st))
            = Some (file_of w (slice_to_neg 2 (CLANG_VERSION w)) c)
         /\ calls (snd (find_libclang_dir w clang_binary libclang_path st))
            = (calls st
               ++ queries w clang_binary (slice_to_neg 2 (CLANG_VERSION w))
                          (pre ++ [c]))%list
         /\ List.length
              (calls (snd (find_libclang_dir w clang_binary libclang_path st)))
            = List.length (calls st) + List.length pre + 1).
Proof.
  split; [reflexivity|].
  split; [intros w Hw; unfold platform_candidates; rewrite Hw; reflexivity|].
  split; [intros w Hw; unfold platform_candidates; rewrite Hw; reflexivity|].
  split; [intros w Hw; unfold platform_candidates; rewrite Hw; reflexivity|].
  intros P w clang_binary libclang_path st pre post c d Hh Hc Hpre Hp.
  destruct (find_libclang_dir_scan w clang_binary libclang_path st _ Hh Hc)
    as (H1 & H2 & H3 & _).
  rewrite (scan_stops_at w clang_binary _ pre post c (Found d) _ Hpre Hp)
    in H1, H2, H3 by discriminate.
  cbn [fst snd] in H1, H2, H3. unfold queried in H3. cbn [fst snd] in H3.
  repeat split; try assumption.
  rewrite H3, length_app, queries_app, length_app.
  assert (Hone : forall n c0 v,
             probe w clang_binary (slice_to_neg 2 (CLANG_VERSION w)) n c0 = v ->
             (v = NotFound \/ exists d0, v = Found d0) ->
             List.length
               (queries w clang_binary (slice_to_neg 2 (CLANG_VERSION w)) [c0])
             = 1).
  { intros n c0 v Hv Hcase. unfold probe in Hv. unfold queries.
    cbn [flat_map].
    destruct (query w clang_binary
                (file_of w (slice_to_neg 2 (CLANG_VERSION w)) c0));
      [reflexivity|].
    subst v. destruct Hcase as [|[d0 ?]]; discriminate. }
  rewrite (Hone _ c _ Hp) by eauto.
  assert (Hlen : forall l n,
             (forall i c', nth_error l i = Some c' ->
                           probe w clang_binary
                                 (slice_to_neg 2 (CLANG_VERSION w))
                                 (n + i) c' = NotFound) ->
             List.length
               (queries w clang_binary (slice_to_neg 2 (CLANG_VERSION w)) l)
             = List.length l).
  { induction l as [|c0 l IH]; intros n Hl; [reflexivity|].
    change (c0 :: l) with ([c0] ++ l)%list.
    rewrite queries_app, !length_app, (Hone (n + 0) c0 NotFound).
    - rewrite (IH (S n)); [reflexivity|].
      intros i c' Hi. rewrite Nat.add_succ_comm. apply (Hl (S i)). exact Hi.
    - apply (Hl 0). reflexivity.
    - now left. }
  rewrite (Hlen pre _ Hpre). lia.
Qed.

Lemma search_returns_first_verified_witness :
  fst (find_libclang_dir (P := Posix.posixpath) linux
         "clang" EmptyString fresh)
  = Return (Some llvm_lib)
  /\ libclang_name (snd (find_libclang_dir (P := Posix.posixpath) linux
                           "clang" EmptyString fresh))
     = Some "libclang.so"
  /\ calls (snd (find_libclang_dir (P := Posix.posixpath) linux
                   "clang" EmptyString fresh))
     = [ mkInvocation ["clang"; "-print-file-name=libclang-3.8.so"]
                      None None None;
         mkInvocation ["clang"; "-print-file-name=libclang.so"]
                      None None None ]
  /\ List.length
       (calls (snd (find_libclang_dir (P := Posix.posixpath) linux
                      "clang" EmptyString fresh)))
     = 2
  /\ platform_candidates (mkWorld "Windows" "('64bit', 'WindowsPE')" "3.3.6"
                            "3.8.0" (fun _ => false) (fun _ => false)
                            (fun _ _ => Output EmptyString))
     = Some [(".dll", "libclang"); (".dll", "clang");
             (".lib", "libclang"); (".lib", "clang")].
Proof.
  pose proof search_returns_first_verified as (_ & _ & _ & W & H).
  specialize (H Posix.posixpath linux "clang" EmptyString fresh
                [(".so", "libclang-$version")]
                [(".so.1", "libclang-$version"); (".so.1", "libclang")]
                (".so", "libclang") llvm_lib eq_refl eq_refl).
  assert (Hpre : forall i c',
             nth_error [(".so", "libclang-$version")] i = Some c' ->
             probe (P := Posix.posixpath) linux "clang"
                   (slice_to_neg 2 (CLANG_VERSION linux))
                   (List.length (calls fresh) + i) c' = NotFound).
  { intros [|[|i]] c' Hi; try discriminate Hi.
    injection Hi as <-. vm_compute. reflexivity. }
  specialize (H Hpre ltac:(vm_compute; reflexivity)).
  destruct H as (H1 & H2 & H3 & H4).
  split; [exact H1|]. split; [exact H2|]. split; [exact H3|].
  split; [exact H4|]. apply W. reflexivity.
Defined.

(** *** Exhaustion *)

(** C7, the claim as stated fails: the compiler is not installed, so no
    candidate verifies, and the call raises the error of the invocation
    instead of returning [None]. *)
Lemma no_candidate_verifies_but_error_raised :
  platform_candidates darwin_without_clang = Some [(".dylib", "libclang")]
  /\ (forall n d,
        probe (P := Posix.posixpath) darwin_without_clang "clang" "3.8" n
              (".dylib", "libclang")
        <> Found d)
  /\ fst (find_libclang_dir (P := Posix.posixpath) darwin_without_clang
            "clang" EmptyString fresh)
     = Raise (OSError 2)
  /\ fst (find_libclang_dir (P := Posix.posixpath) darwin_without_clang
            "clang" EmptyString fresh)
     <> Return None.
Proof.
  split; [reflexivity|].
  split; [intros n d; vm_compute; discriminate|].
  split; [vm_compute; reflexivity | vm_compute; discriminate].
Qed.

(** C7 (amended).  When the user hint is not used and every candidate of
    the platform is queried without a failing invocation and does not
    verify, [find_libclang_dir] returns [None] after querying all of them
    in order, logs the error [no libclang found at all], and leaves
    [libclang_name] as it was: unset if it was unset before the call. *)
Theorem exhausted_search_returns_none :
  forall (P : path_module) (w : world)
         (clang_binary libclang_path : string) (st : state)
         (cs : list (string * string)),
    hint_usable w libclang_path = false ->
    platform_candidates w = Some cs ->
    (forall i c, nth_error cs i = Some c ->
                 probe w clang_binary (slice_to_neg 2 (CLANG_VERSION w))
                       (List.length (calls st) + i) c = NotFound) ->
    fst (find_libclang_dir w clang_binary libclang_path st) = Return None
    /\ libclang_name (snd (find_libclang_dir w clang_binary libclang_path st))
       = libclang_name st
    /\ (libclang_name st = None ->
        libclang_name
          (snd (find_libclang_dir w clang_binary libclang_path st))
        = None)
    /\ calls (snd (find_libclang_dir w clang_binary libclang_path st))
       = (calls st
          ++ queries w clang_binary (slice_to_neg 2 (CLANG_VERSION w)) cs)%list
    /\ In (ERROR, " no libclang found at all")
          (log (snd (find_libclang_dir w clang_binary libclang_path st))).
Proof.
  intros P w clang_binary libclang_path st cs Hh Hc Hall.
  destruct (find_libclang_dir_scan w clang_binary libclang_path st _ Hh Hc)
    as (H1 & H2 & H3 & H4).
  rewrite (scan_passes_all w clang_binary _ cs _ Hall) in H1, H2, H3, H4.
  cbn [fst snd] in H1, H2, H3, H4. unfold queried in H3.
  cbn [fst snd] in H3. rewrite app_nil_r in H3.
  repeat split; auto. intros Hn. now rewrite H2.
Qed.

Lemma exhausted_search_returns_none_witness :
  fst (find_libclang_dir (P := Posix.posixpath) linux_without_libclang
         "clang" "/opt/missing/libclang.so" fresh)
  = Return None
  /\ libclang_name
       (snd (find_libclang_dir (P := Posix.posixpath) linux_without_libclang
               "clang" "/opt/missing/libclang.so" fresh))
     = None
  /\ List.length
       (calls (snd (find_libclang_dir (P := Posix.posixpath)
                      linux_without_libclang
                      "clang" "/opt/missing/libclang.so" fresh)))
     = 4.
Proof.
  assert (Hall : forall i c,
             nth_error [(".so", "libclang-$version"); (".so", "libclang");
                        (".so.1", "libclang-$version"); (".so.1", "libclang")]
                       i = Some c ->
             probe (P := Posix.posixpath) linux_without_libclang "clang"
                   (slice_to_neg 2 (CLANG_VERSION linux_without_libclang))
                   (List.length (calls fresh) + i) c = NotFound).
  { intros [|[|[|[|[|i]]]]] c Hi; try discriminate Hi;
      injection Hi as <-; vm_compute; reflexivity. }
  destruct (exhausted_search_returns_none
              Posix.posixpath linux_without_libclang
              "clang" "/opt/missing/libclang.so" fresh _
              eq_refl eq_refl Hall) as (H1 & H2 & _ & H3 & _).
  split; [exact H1|]. split; [exact H2|]. rewrite H3. reflexivity.
Defined.

(** *** The cached file name *)

Lemma find_libclang_dir_unknown_platform {P : path_module} (w : world)
    (clang_binary libclang_path : string) (st : state) :
  hint_usable w libclang_path = false ->
  platform_candidates w = None ->
  fst (find_libclang_dir w clang_binary libclang_path st)
  = Raise (KeyError (system w))
  /\ libclang_name (snd (find_libclang_dir w clang_binary libclang_path st))
     = libclang_name st.
Proof.
  intros Hh Hc.
  assert (Hs : dict_get suffixes (system w) = None).
  { unfold platform_candidates in Hc.
    destruct (dict_get suffixes (system w)) as [sufs|] eqn:Hs;
      [|reflexivity].
    destruct (same_platforms _ _ Hs) as [names Hn]. rewrite Hn in Hc.
    discriminate. }
  destruct (find_libclang_dir_run w clang_binary libclang_path st) as [l ->].
  rewrite Hh, (search_unknown_platform w clang_binary _ Hs). split; reflexivity.
Qed.

(** What a call does to [libclang_name], and what it returns, as a
    function of the state it starts from. *)
Lemma find_libclang_dir_summary {P : path_module} (w : world)
    (clang_binary libclang_path : string) (st : state) :
  let r := find_libclang_dir w clang_binary libclang_path st in
  let version_str := slice_to_neg 2 (CLANG_VERSION w) in
  (hint_usable w libclang_path = true
   /\ fst r = Return (Some (dirname libclang_path))
   /\ libclang_name (snd r) = Some (basename libclang_path))
  \/ (hint_usable w libclang_path = false
      /\ exists c n d,
           probe w clang_binary version_str n c = Found d
           /\ fst r = Return (Some d)
           /\ libclang_name (snd r) = Some (file_of w version_str c)
           /\ forall cached,
                fst (find_libclang_dir w clang_binary libclang_path
                       (mkState cached (log st) (calls st)))
                = Return (Some d)
                /\ libclang_name
                     (snd (find_libclang_dir w clang_binary libclang_path
                             (mkState cached (log st) (calls st))))
                   = Some (file_of w version_str c))
  \/ (hint_usable w libclang_path = false
      /\ (fst r = Return None \/ exists e, fst r = Raise e)
      /\ libclang_name (snd r) = libclang_name st
      /\ forall cached,
           fst (find_libclang_dir w clang_binary libclang_path
                  (mkState cached (log st) (calls st)))
           = fst r).
Proof.
  intros r version_str.
  destruct (hint_usable w libclang_path) eqn:Hh.
  - left. subst r.
    destruct (find_libclang_dir_run w clang_binary libclang_path st)
      as [l ->].
    rewrite Hh. repeat split.
  - right.
    destruct (platform_candidates w) as [cs|] eqn:Hc.
    + pose proof (find_libclang_dir_scan w clang_binary libclang_path st
                    cs Hh Hc) as (H1 & H2 & _).
      assert (Hother : forall cached,
                 let r' := find_libclang_dir w clang_binary libclang_path
                             (mkState cached (log st) (calls st)) in
                 fst r' = fst r
                 /\ forall c d,
                      snd (scan w clang_binary version_str
                             (List.length (calls st)) cs)
                      = Some (c, Found d) ->
                      libclang_name (snd r')
                      = Some (file_of w version_str c)).
      { intros cached r'.
        pose proof (find_libclang_dir_scan w clang_binary libclang_path
                      (mkState cached (log st) (calls st)) cs Hh Hc)
          as (K1 & K2 & _).
        cbn [calls] in K1, K2. fold version_str in K1, K2.
        split.
        - subst r r'. rewrite K1, H1. reflexivity.
        - intros c d Hs. subst r'. rewrite K2, Hs. reflexivity. }
      fold version_str in H1, H2. fold r in H1, H2.
      destruct (snd (scan w clang_binary version_str
                       (List.length (calls st)) cs))
        as [[c [d| |e]]|] eqn:Hs.
      * left. split; [reflexivity|].
        exists c, (List.length (calls st)
                   + List.length (fst (scan w clang_binary version_str
                                         (List.length (calls st)) cs))), d.
        split; [apply (scan_hit w clang_binary version_str cs _ c _ Hs)|].
        split; [exact H1|]. split; [exact H2|].
        intros cached. destruct (Hother cached) as [K1 K2].
        split; [rewrite K1; exact H1 | apply (K2 c d eq_refl)].
      * right. split; [reflexivity|]. split; [left; exact H1|].
        split; [exact H2|]. intros cached. apply (Hother cached).
      * right. split; [reflexivity|]. split; [right; eauto|].
        split; [exact H2|]. intros cached. apply (Hother cached).
      * right. split; [reflexivity|]. split; [left; exact H1|].
        split; [exact H2|]. intros cached. apply (Hother cached).
    + right. split; [reflexivity|].
      destruct (find_libclang_dir_unknown_platform w clang_binary
                  libclang_path st Hh Hc) as [H1 H2].
      split; [right; eauto|]. split; [exact H2|].
      intros cached.
      destruct (find_libclang_dir_unknown_platform w clang_binary
                  libclang_path (mkState cached (log st) (calls st)) Hh Hc)
        as [K1 _].
      subst r. rewrite K1, H1. reflexivity.
Qed.

(** C5, the claim as stated fails: a first call finds [libclang.so]
    through a user hint, a second call with another hint succeeds too,
    and [libclang_name] is overwritten with the second file. *)
Lemma second_success_overwrites_name :
  libclang_name
    (snd (find_libclang_dir (P := Posix.posixpath) two_libraries
            "clang" "/opt/a/libclang.so" fresh))
  = Some "libclang.so"
  /\ libclang_name
       (snd (find_libclang_dir (P := Posix.posixpath) two_libraries
               "clang" "/opt/b/libclang.so.1"
               (snd (find_libclang_dir (P := Posix.posixpath) two_libraries
                       "clang" "/opt/a/libclang.so" fresh))))
     = Some "libclang.so.1"
  /\ Some "libclang.so.1" <> Some "libclang.so".
Proof.
  split; [vm_compute; reflexivity|].
  split; [vm_compute; reflexivity | discriminate].
Qed.

(** C5 (amended).  [libclang_name] is written by successful calls only
    and by each of them: a call that returns a directory sets it to the
    file that call found (the basename of the user hint, or the file of
    the verified candidate) whatever was cached before, and a call that
    returns [None] or raises leaves it as it was. *)
Theorem libclang_name_follows_last_success :
  forall (P : path_module) (w : world)
         (clang_binary libclang_path : string) (st : state),
    match fst (find_libclang_dir w clang_binary libclang_path st) with
    | Return (Some d) =>
        exists file,
          (forall cached,
              fst (find_libclang_dir w clang_binary libclang_path
                     (mkState cached (log st) (calls st)))
              = Return (Some d)
              /\ libclang_name
                   (snd (find_libclang_dir w clang_binary libclang_path
                           (mkState cached (log st) (calls st))))
                 = Some file)
          /\ libclang_name
               (snd (find_libclang_dir w clang_binary libclang_path st))
             = Some file
          /\ ((hint_usable w libclang_path = true
               /\ d = dirname libclang_path
               /\ file = basename libclang_path)
              \/ (hint_usable w libclang_path = false
                  /\ exists c n,
                       probe w clang_binary
                             (slice_to_neg 2 (CLANG_VERSION w)) n c
                       = Found d
                       /\ file
                          = file_of w (slice_to_neg 2 (CLANG_VERSION w)) c))
    | _ =>
        libclang_name
          (snd (find_libclang_dir w clang_binary libclang_path st))
        = libclang_name st
    end.
Proof.
  intros P w clang_binary libclang_path st.
  destruct (find_libclang_dir_summary w clang_binary libclang_path st)
    as [(Hh & H1 & H2) | [(Hh & c & n & d & Hp & H1 & H2 & H3)
                         | (Hh & H1 & H2 & H3)]].
  - rewrite H1. exists (basename libclang_path).
    split; [|split; [exact H2 | left; auto]].
    intros cached.
    destruct (find_libclang_dir_summary w clang_binary libclang_path
                (mkState cached (log st) (calls st)))
      as [(_ & K1 & K2) | [(Kh & _) | (Kh & _)]]; [auto | congruence ..].
  - rewrite H1. exists (file_of w (slice_to_neg 2 (CLANG_VERSION w)) c).
    split; [exact H3|]. split; [exact H2|]. right. split; [exact Hh|].
    exists c, n. auto.
  - destruct H1 as [-> | [e ->]]; exact H2.
Qed.

(** ** Comment normalisation *)

Import Comment.

(** C3, the claim as stated fails: on the example of the specification
    the result is not [ Full text here.<br><br> More text.]; every line is
    cut at offset 3 before it is stripped. *)
Lemma doxygen_example_differs :
  cleanup_comment doxygen = "ll text here.<br>re text."
  /\ cleanup_comment doxygen <> " Full text here.<br><br> More text.".
Proof. split; [vm_compute; reflexivity | vm_compute; discriminate]. Qed.

(** C3 (amended).  On the raw comment
    [/** @brief Does X.\n\n Full text here.\n\n More text.\n*/] the brief
    line is dropped, and the text lines that survive are, in this order,
    [ll text here.] and [re text.]: each is the raw line cut at offset 3
    and then stripped.  The result is these lines and the blank lines
    kept between them, joined with [<br>]. *)
Theorem doxygen_example_text_lines :
  filter (fun l => negb (String.eqb l EmptyString))
         (clean_lines (run (split nl doxygen)))
  = ["ll text here."; "re text."]
  /\ cleanup_comment doxygen
     = PyStr.join "<br>" (clean_lines (run (split nl doxygen)))
  /\ contains (cleanup_comment doxygen) "brief" = false
  /\ contains (cleanup_comment doxygen) "Does X." = false.
Proof.
  split; [vm_compute; reflexivity|].
  split; [reflexivity|].
  split; vm_compute; reflexivity.
Qed.

(** C4, the code at the failing input: one blank line between two text
    lines.  [prev_line] is assigned the current line before it is
    compared, so the blank line is dropped and no empty segment is
    left between [a] and [b]. *)
Theorem single_blank_line_is_dropped :
  split nl ("   a" ++ String nl (String nl "   b"))
  = ["   a"; EmptyString; "   b"]
  /\ clean_lines (run ["   a"; EmptyString; "   b"]) = ["a"; "b"]
  /\ cleanup_comment ("   a" ++ String nl (String nl "   b")) = "a<br>b"
  /\ cleanup_comment ("   a" ++ String nl (String nl "   b")) <> "a<br><br>b".
Proof.
  split; [reflexivity|]. split; [vm_compute; reflexivity|].
  split; [vm_compute; reflexivity | vm_compute; discriminate].
Qed.

(** *** Substrings *)

Lemma prefix_nil (s : string) : String.prefix EmptyString s = true.
Proof. destruct s; reflexivity. Qed.

Lemma prefix_of_nil (p : string) :
  String.prefix p EmptyString = true -> p = EmptyString.
Proof. destruct p; [reflexivity | discriminate]. Qed.

Lemma prefix_app (p a b : string) :
  String.prefix p a = true -> String.prefix p (a ++ b) = true.
Proof.
  revert a. induction p as [|x p IH]; intros a H; [apply prefix_nil|].
  destruct a as [|y a]; [discriminate|]. cbn [append String.prefix] in *.
  destruct (ascii_dec x y); [auto | discriminate].
Qed.

Lemma prefix_shorter (p q s : string) :
  String.prefix (p ++ q) s = true -> String.prefix p s = true.
Proof.
  revert s. induction p as [|x p IH]; intros s H; [apply prefix_nil|].
  destruct s as [|y s]; [discriminate|]. cbn [append String.prefix] in *.
  destruct (ascii_dec x y); [auto | discriminate].
Qed.

Lemma contains_tail (c : ascii) (s p : string) :
  contains (String c s) p = false -> contains s p = false.
Proof. cbn [contains]. intros H. now apply orb_false_iff in H. Qed.

Lemma contains_app_r (a s p : string) :
  contains (a ++ s) p = false -> contains s p = false.
Proof.
  induction a as [|c a IH]; intros H; [exact H|].
  apply IH. exact (contains_tail c _ _ H).
Qed.

Lemma contains_app_l (a b p : string) :
  contains (a ++ b) p = false -> contains a p = false.
Proof.
  induction a as [|c a IH]; intros H.
  - cbn [append] in H. cbn [contains]. rewrite orb_false_r.
    destruct (String.prefix p EmptyString) eqn:E; [|reflexivity].
    apply prefix_of_nil in E. subst p.
    destruct b; cbn in H; discriminate.
  - cbn [append contains] in *. apply orb_false_iff in H as [H1 H2].
    rewrite (IH H2), orb_false_r.
    destruct (String.prefix p (String c a)) eqn:E; [|reflexivity].
    apply (prefix_app _ _ b) in E. cbn [append] in E. congruence.
Qed.

Lemma contains_middle (a s b p : string) :
  contains (a ++ s ++ b) p = false -> contains s p = false.
Proof. intros H. apply contains_app_r in H. now apply contains_app_l in H. Qed.

Lemma contains_longer (s p q : string) :
  contains s p = false -> contains s (p ++ q) = false.
Proof.
  induction s as [|c s IH]; cbn [contains]; intros H;
    apply orb_false_iff in H as [H1 H2]; apply orb_false_iff; split;
    try (destruct (String.prefix (p ++ q) _) eqn:E; [|reflexivity];
         apply prefix_shorter in E; congruence); auto.
Qed.

Lemma slice_from_suffix (n : nat) (s : string) :
  exists a, s = a ++ slice_from n s.
Proof.
  revert s. induction n as [|n IH]; intros s.
  - exists EmptyString. destruct s; reflexivity.
  - destruct s as [|c s]; [exists EmptyString; reflexivity|].
    destruct (IH s) as [a Ha]. exists (String c a). cbn. now rewrite <- Ha.
Qed.

Lemma lstrip_suffix (s : string) : exists a, s = a ++ lstrip s.
Proof.
  induction s as [|c s [a Ha]]; [exists EmptyString; reflexivity|].
  cbn [lstrip]. destruct (isspace c).
  - exists (String c a). cbn. now rewrite <- Ha.
  - exists EmptyString. reflexivity.
Qed.

Lemma rstrip_prefix (s : string) : exists b, s = rstrip s ++ b.
Proof.
  induction s as [|c s [b Hb]]; [exists EmptyString; reflexivity|].
  cbn [rstrip]. destruct (rstrip s) as [|c' r].
  - destruct (isspace c).
    + exists (String c s). reflexivity.
    + exists b. cbn. cbn in Hb. now rewrite <- Hb.
  - exists b. cbn. cbn in Hb. now rewrite <- Hb.
Qed.

Lemma strip_substring (s : string) : exists a b, s = a ++ strip s ++ b.
Proof.
  unfold strip. destruct (lstrip_suffix s) as [a Ha].
  destruct (rstrip_prefix (lstrip s)) as [b Hb].
  exists a, b. now rewrite <- Hb.
Qed.

Lemma split_not_nil (sep : ascii) (s : string) : split sep s <> [].
Proof.
  destruct s as [|c s]; cbn [split]; [discriminate|].
  destruct (Ascii.eqb c sep); [discriminate|].
  destruct (split sep s); discriminate.
Qed.

(** Joining the pieces of [split] with the separator gives the string
    back. *)
Lemma join_split (sep : ascii) (s : string) :
  PyStr.join (String sep EmptyString) (split sep s) = s.
Proof.
  unfold PyStr.join. induction s as [|c s IH]; [reflexivity|].
  cbn [split]. destruct (Ascii.eqb_spec c sep) as [->|Hc].
  - pose proof (split_not_nil sep s) as Hn.
    destruct (split sep s) as [|h t]; [congruence|].
    rewrite <- IH. reflexivity.
  - pose proof (split_not_nil sep s) as Hn.
    destruct (split sep s) as [|h t]; [congruence|].
    rewrite <- IH. destruct t; reflexivity.
Qed.

Lemma join_substring (sep : string) (ls : list string) (l : string) :
  In l ls -> exists a b, PyStr.join sep ls = a ++ l ++ b.
Proof.
  unfold PyStr.join. induction ls as [|h t IH]; [intros []|].
  intros [<-|H].
  - destruct t.
    + exists EmptyString, EmptyString. cbn. now rewrite append_nil_r.
    + exists EmptyString. cbn [String.concat]. eexists. reflexivity.
  - destruct (IH H) as (a & b & Hab). destruct t as [|h' t]; [destruct H|].
    change (String.concat sep (h :: h' :: t))
      with (h ++ sep ++ String.concat sep (h' :: t)).
    rewrite Hab. exists (h ++ sep ++ a), b. now rewrite !append_assoc.
Qed.

Lemma split_substring (sep : ascii) (s l : string) :
  In l (split sep s) -> exists a b, s = a ++ l ++ b.
Proof.
  intros H.
  destruct (join_substring (String sep EmptyString) _ _ H) as (a & b & Hab).
  rewrite join_split in Hab. now exists a, b.
Qed.

(** *** What the loop emits *)

Lemma body_emits (st : loop_state) (line : string) :
  clean_lines (body st line) = clean_lines st
  \/ (clean_lines (body st line)
      = (clean_lines st ++ [strip (slice_from 3 line)])%list
      /\ strip (slice_from 3 line) <> EmptyString).
Proof.
  unfold body.
  destruct (startswith (strip (slice_from 3 line)) "@brief"
            || startswith (strip (slice_from 3 line)) "/brief");
    [left; reflexivity|].
  destruct (String.eqb_spec (strip (slice_from 3 line)) EmptyString)
    as [E|E]; cbn [andb]; [left; reflexivity|].
  destruct (is_brief_comment st); [left; reflexivity|].
  right. split; [reflexivity | exact E].
Qed.

Lemma run_emits (lines : list string) (st : loop_state) (l : string) :
  In l (clean_lines (fold_left body lines st)) ->
  In l (clean_lines st)
  \/ (l <> EmptyString
      /\ exists line, In line lines /\ l = strip (slice_from 3 line)).
Proof.
  revert st. induction lines as [|line lines IH]; intros st H; [now left|].
  cbn [fold_left] in H. destruct (IH _ H) as [H1 | (Hl & ln & Hin & ->)].
  - destruct (body_emits st line) as [E | [E Hne]]; rewrite E in H1.
    + now left.
    + apply in_app_or in H1 as [H1 | [<- | []]]; [now left|].
      right. split; [exact Hne|]. exists line. split; [now left | reflexivity].
  - right. split; [exact Hl|]. exists ln. split; [now right | reflexivity].
Qed.

(** Every emitted line is non-empty and is a piece of the raw comment. *)
Lemma emitted_lines (raw l : string) :
  In l (clean_lines (run (split nl raw))) ->
  l <> EmptyString /\ exists a b, raw = a ++ l ++ b.
Proof.
  intros H. destruct (run_emits _ _ _ H) as [[] | (Hl & line & Hin & ->)].
  split; [exact Hl|].
  destruct (split_substring _ _ _ Hin) as (a & b & ->).
  destruct (slice_from_suffix 3 line) as [a1 Ha1].
  destruct (strip_substring (slice_from 3 line)) as (a2 & b2 & Hs).
  exists (a ++ a1 ++ a2), (b2 ++ b).
  rewrite Ha1 at 1. rewrite Hs at 1. now rewrite !append_assoc.
Qed.

(** *** Joining with [<br>] *)

(** Decide the character comparisons [String.prefix] is stuck on. *)
Ltac bite :=
  repeat match goal with
         | |- context [ascii_dec ?a ?b] => destruct (ascii_dec a b); [subst|]
         | H : context [ascii_dec ?a ?b] |- _ =>
             destruct (ascii_dec a b); [subst|]
         end;
  try reflexivity; try discriminate; try congruence.

Lemma contains_prefix (s p : string) :
  contains s p = false -> String.prefix p s = false.
Proof.
  destruct s; cbn [contains]; intros H; now apply orb_false_iff in H.
Qed.

(** A non-empty line without [<br>] followed by [<br>] does not start
    with [<br>]. *)
Lemma line_then_br_prefix (l rest : string) :
  l <> EmptyString -> contains l "<br>" = false ->
  String.prefix "<br>" (l ++ "<br>" ++ rest) = false.
Proof.
  intros Hl Hc. apply contains_prefix in Hc.
  destruct l as [|c1 [|c2 [|c3 [|c4 l]]]]; [congruence|..];
    cbn [append String.prefix] in *; bite.
  rewrite prefix_nil in Hc. discriminate.
Qed.

Lemma join_cons2 (sep l l' : string) (ls : list string) :
  PyStr.join sep (l :: l' :: ls) = l ++ sep ++ PyStr.join sep (l' :: ls).
Proof. reflexivity. Qed.

Lemma br_then_join (l rest : string) :
  contains l "<br>" = false ->
  String.prefix "<br>" rest = false ->
  contains rest "<br><br>" = false ->
  contains (l ++ "<br>" ++ rest) "<br><br>" = false.
Proof.
  intros Hc Hp Hr. induction l as [|c l IH].
  - cbn [append contains String.prefix] in *. bite.
  - change (String c l ++ "<br>" ++ rest)
      with (String c (l ++ "<br>" ++ rest)).
    cbn [contains]. rewrite (IH (contains_tail _ _ _ Hc)), orb_false_r.
    destruct (String.prefix "<br><br>" (String c (l ++ "<br>" ++ rest)))
      eqn:E; [|reflexivity].
    apply (prefix_shorter "<br>" "<br>") in E.
    change (String c (l ++ "<br>" ++ rest))
      with (String c l ++ "<br>" ++ rest) in E.
    rewrite line_then_br_prefix in E; [discriminate|discriminate|exact Hc].
Qed.

Lemma prefix_refl (p : string) : String.prefix p p = true.
Proof.
  induction p as [|c p IH]; [reflexivity|]. cbn [String.prefix].
  destruct (ascii_dec c c); [exact IH | congruence].
Qed.

Lemma endswith_contains (s p : string) :
  endswith s p = true -> contains s p = true.
Proof.
  induction s as [|c s IH]; cbn [endswith contains]; intros H;
    apply orb_true_iff in H as [H|H]; try discriminate H.
  - apply String.eqb_eq in H. subst p. reflexivity.
  - apply String.eqb_eq in H. subst p. now rewrite prefix_refl.
  - rewrite (IH H). apply orb_true_r.
Qed.

Lemma endswith_app (a b p : string) :
  endswith (a ++ b) p = true ->
  endswith b p = true \/ String.length b < String.length p.
Proof.
  induction a as [|c a IH]; intros H; [now left|].
  cbn [append endswith] in H. apply orb_true_iff in H as [H|H]; [|auto].
  right. apply String.eqb_eq in H. subst p. cbn [String.length].
  rewrite length_append. lia.
Qed.

Lemma br_then_join_suffix (l rest : string) :
  rest <> EmptyString ->
  endswith rest "<br>" = false ->
  endswith (l ++ "<br>" ++ rest) "<br>" = false.
Proof.
  intros Hr He.
  destruct (endswith (l ++ "<br>" ++ rest) "<br>") eqn:E; [|reflexivity].
  apply endswith_app in E as [E|E].
  - exfalso. destruct rest as [|c rest]; [congruence|].
    cbn in E. rewrite ?andb_false_r in E. cbn in E, He.
    rewrite He in E. discriminate.
  - rewrite length_append in E. cbn in E. lia.
Qed.

Lemma join_not_nil (sep l : string) (ls : list string) :
  l <> EmptyString -> PyStr.join sep (l :: ls) <> EmptyString.
Proof.
  intros Hl. destruct ls; [exact Hl|]. rewrite join_cons2.
  destruct l; [congruence | discriminate].
Qed.

(** The lines the proofs below join: non-empty and without [<br>]. *)
Lemma join_br_prefix (ls : list string) :
  Forall (fun l => l <> EmptyString /\ contains l "<br>" = false) ls ->
  String.prefix "<br>" (PyStr.join "<br>" ls) = false.
Proof.
  intros [|l [|l' t] [Hl Hc] _]; [reflexivity| |].
  - now apply contains_prefix.
  - rewrite join_cons2. now apply line_then_br_prefix.
Qed.

Lemma join_br_double (ls : list string) :
  Forall (fun l => l <> EmptyString /\ contains l "<br>" = false) ls ->
  contains (PyStr.join "<br>" ls) "<br><br>" = false.
Proof.
  induction 1 as [|l t [Hl Hc] Ht IH]; [reflexivity|].
  destruct t as [|l' t].
  - apply (contains_longer l "<br>" "<br>"). exact Hc.
  - rewrite join_cons2. apply br_then_join; [exact Hc | | exact IH].
    now apply join_br_prefix.
Qed.

Lemma join_br_suffix (ls : list string) :
  Forall (fun l => l <> EmptyString /\ contains l "<br>" = false) ls ->
  endswith (PyStr.join "<br>" ls) "<br>" = false.
Proof.
  induction 1 as [|l t [Hl Hc] Ht IH]; [reflexivity|].
  destruct t as [|l' t].
  - cbn. destruct (endswith l "<br>") eqn:E; [|reflexivity].
    apply endswith_contains in E. congruence.
  - rewrite join_cons2. apply br_then_join_suffix; [|exact IH].
    inversion Ht as [|? ? [Hl' _] _]; subst. now apply join_not_nil.
Qed.

(** C10, the claim as stated fails: text of the comment passes into the
    markup as it is, so a comment line that holds [<br>] gives markup
    that begins and ends with [<br>] or holds two of them in a row. *)
Lemma markup_of_comment_text_is_kept :
  cleanup_comment "   <br>" = "<br>"
  /\ startswith (cleanup_comment "   <br>") "<br>" = true
  /\ endswith (cleanup_comment "   <br>") "<br>" = true
  /\ contains (cleanup_comment "   a<br><br>b") "<br><br>" = true.
Proof. repeat split; vm_compute; reflexivity. Qed.

(** C10 (amended).  For every raw comment, every line [cleanup_comment]
    emits is non-empty: a line that is blank once cleaned is never
    appended.  Hence, for a raw comment that does not itself hold the
    text [<br>], the returned markup never holds two adjacent [<br>],
    never begins with [<br>] and never ends with [<br>]. *)
Theorem emitted_lines_are_never_blank :
  forall raw : string,
    Forall (fun l => l <> EmptyString) (clean_lines (run (split nl raw)))
    /\ cleanup_comment raw
       = PyStr.join "<br>" (clean_lines (run (split nl raw)))
    /\ (contains raw "<br>" = false ->
        contains (cleanup_comment raw) "<br><br>" = false
        /\ startswith (cleanup_comment raw) "<br>" = false
        /\ endswith (cleanup_comment raw) "<br>" = false).
Proof.
  intros raw. split; [|split; [reflexivity|]].
  - apply Forall_forall. intros l Hl. now apply emitted_lines in Hl.
  - intros Hraw.
    assert (Hok : Forall (fun l => l <> EmptyString
                                   /\ contains l "<br>" = false)
                         (clean_lines (run (split nl raw)))).
    { apply Forall_forall. intros l Hl.
      destruct (emitted_lines _ _ Hl) as (Hne & a & b & Hab).
      split; [exact Hne|]. rewrite Hab in Hraw.
      exact (contains_middle _ _ _ _ Hraw). }
    unfold cleanup_comment, startswith.
    split; [now apply join_br_double|].
    split; [now apply join_br_prefix | now apply join_br_suffix].
Qed.

Lemma emitted_lines_are_never_blank_witness :
  contains (cleanup_comment doxygen) "<br><br>" = false
  /\ startswith (cleanup_comment doxygen) "<br>" = false
  /\ endswith (cleanup_comment doxygen) "<br>" = false.
Proof.
  apply (proj2 (proj2 (emitted_lines_are_never_blank doxygen))).
  vm_compute. reflexivity.
Defined.


(** * Further properties *)

(** ** Comment normalisation, line by line *)

Import Chars Lines.

Lemma body_cases (st : loop_state) (line : string) :
  body st line
  = if is_brief line then mkLoop (clean_lines st) (cleaned line) true
    else if String.eqb (cleaned line) EmptyString
         then mkLoop (clean_lines st) (cleaned line) false
         else if is_brief_comment st
              then mkLoop (clean_lines st) (cleaned line) true
              else mkLoop (clean_lines st ++ [cleaned line])%list
                          (cleaned line) false.
Proof.
  unfold body, is_brief, cleaned.
  destruct (startswith (strip (slice_from 3 line)) "@brief"
            || startswith (strip (slice_from 3 line)) "/brief");
    [reflexivity|].
  destruct (String.eqb (strip (slice_from 3 line)) EmptyString);
    [reflexivity|].
  cbn [andb]. destruct (is_brief_comment st); reflexivity.
Qed.

Lemma body_same_tail (st : loop_state) (line line' : string) :
  slice_from 3 line = slice_from 3 line' -> body st line = body st line'.
Proof.
  intros H. rewrite !body_cases. unfold is_brief, cleaned. now rewrite H.
Qed.

Lemma fold_body_same_tails (lines lines' : list string) (st : loop_state) :
  map (slice_from 3) lines = map (slice_from 3) lines' ->
  fold_left body lines st = fold_left body lines' st.
Proof.
  revert lines' st. induction lines as [|l lines IH];
    intros [|l' lines'] st H; try discriminate H; [reflexivity|].
  cbn [map] in H. injection H as Hl Hrest. cbn [fold_left].
  rewrite (body_same_tail st l l' Hl). now apply IH.
Qed.

Lemma slice_from_short (n : nat) (s : string) :
  String.length s <= n -> slice_from n s = EmptyString.
Proof.
  revert s. induction n as [|n IH]; intros [|c s] H; cbn in *;
    try reflexivity; try lia.
  apply IH. lia.
Qed.

Lemma fold_body_blank (lines : list string) (st : loop_state) :
  Forall (fun l => cleaned l = EmptyString) lines ->
  clean_lines (fold_left body lines st) = clean_lines st.
Proof.
  intros H. revert st. induction H as [|l lines Hl _ IH]; intros st;
    [reflexivity|].
  cbn [fold_left]. rewrite IH, body_cases. unfold is_brief.
  rewrite Hl. reflexivity.
Qed.

(** X1.  The first three characters of every raw line are thrown away
    whatever they are: two raw comments whose lines agree from offset 3
    on are cleaned to the same markup, and a raw comment whose lines all
    have at most three characters is cleaned to the empty string. *)
Theorem cleanup_comment_ignores_first_three_columns :
  forall raw raw' : string,
    (map (slice_from 3) (split nl raw) = map (slice_from 3) (split nl raw') ->
     cleanup_comment raw = cleanup_comment raw')
    /\ (Forall (fun l => String.length l <= 3) (split nl raw) ->
        cleanup_comment raw = EmptyString).
Proof.
  intros raw raw'. split.
  - intros H. unfold cleanup_comment, run.
    now rewrite (fold_body_same_tails _ _ init H).
  - intros H. unfold cleanup_comment, run.
    rewrite fold_body_blank; [reflexivity|].
    apply Forall_forall. intros l Hl.
    rewrite Forall_forall in H. unfold cleaned.
    rewrite slice_from_short by (apply H; exact Hl). reflexivity.
Qed.

Lemma cleanup_comment_ignores_first_three_columns_witness :
  cleanup_comment ("/// text" ++ String nl " * more")
  = cleanup_comment ("abc text" ++ String nl "xyzmore")
  /\ cleanup_comment ("/**" ++ String nl (" * " ++ String nl " */"))
     = EmptyString.
Proof.
  split.
  - apply (proj1 (cleanup_comment_ignores_first_three_columns
                    ("/// text" ++ String nl " * more")
                    ("abc text" ++ String nl "xyzmore"))).
    reflexivity.
  - apply (proj2 (cleanup_comment_ignores_first_three_columns
                    ("/**" ++ String nl (" * " ++ String nl " */"))
                    EmptyString)).
    repeat constructor.
Defined.

(** The loop on lines none of which opens a brief section. *)
Lemma fold_body_without_brief (lines : list string) (st : loop_state) :
  Forall (fun l => is_brief l = false) lines ->
  is_brief_comment st = false ->
  clean_lines (fold_left body lines st)
  = (clean_lines st
     ++ filter (fun l => negb (String.eqb l EmptyString))
               (map cleaned lines))%list
  /\ is_brief_comment (fold_left body lines st) = false.
Proof.
  intros H. revert st. induction H as [|l lines Hl _ IH]; intros st Hst.
  - cbn. now rewrite app_nil_r.
  - cbn [fold_left map filter]. rewrite body_cases, Hl, Hst.
    destruct (String.eqb (cleaned l) EmptyString); cbn [negb].
    + destruct (IH (mkLoop (clean_lines st) (cleaned l) false) eq_refl)
        as [H1 H2].
      split; [rewrite H1; reflexivity | exact H2].
    + destruct (IH (mkLoop (clean_lines st ++ [cleaned l])%list
                           (cleaned l) false) eq_refl) as [H1 H2].
      split; [|exact H2]. rewrite H1. cbn [clean_lines].
      now rewrite <- app_assoc.
Qed.

(** X2.  For a raw comment without any brief line (no line that reads
    [@brief] or [/brief] from offset 3 on, once stripped) the markup is
    exactly the lines cut at offset 3 and stripped, the blank ones left
    out, in their order, joined with [<br>]. *)
Theorem cleanup_comment_without_brief :
  forall raw : string,
    Forall (fun l => is_brief l = false) (split nl raw) ->
    cleanup_comment raw
    = PyStr.join "<br>"
        (filter (fun l => negb (String.eqb l EmptyString))
                (map cleaned (split nl raw))).
Proof.
  intros raw H. unfold cleanup_comment, run.
  destruct (fold_body_without_brief _ init H eq_refl) as [-> _].
  reflexivity.
Qed.

Lemma cleanup_comment_without_brief_witness :
  cleanup_comment ("/** First." ++ String nl
                   (" *" ++ String nl (" * Second.  " ++ String nl " */")))
  = "First.<br>Second.".
Proof.
  apply (cleanup_comment_without_brief
           ("/** First." ++ String nl
            (" *" ++ String nl (" * Second.  " ++ String nl " */")))).
  repeat constructor.
Defined.

(** The loop inside a brief section: nothing is emitted up to the next
    blank line. *)
Lemma fold_body_in_brief (mid : list string) (st : loop_state) :
  Forall (fun l => cleaned l <> EmptyString) mid ->
  is_brief_comment st = true ->
  clean_lines (fold_left body mid st) = clean_lines st
  /\ is_brief_comment (fold_left body mid st) = true.
Proof.
  intros H. revert st. induction H as [|l mid Hl _ IH]; intros st Hst;
    [auto|].
  cbn [fold_left].
  assert (Hb : clean_lines (body st l) = clean_lines st
               /\ is_brief_comment (body st l) = true).
  { rewrite body_cases. destruct (is_brief l); [auto|].
    destruct (String.eqb_spec (cleaned l) EmptyString); [congruence|].
    rewrite Hst. auto. }
  destruct Hb as [Hb1 Hb2]. destruct (IH _ Hb2) as [H1 H2].
  rewrite H1, Hb1. auto.
Qed.

(** X3.  A brief section leaves nothing in the markup: the line that
    opens it and every line after it up to the next blank line (or to the
    end of the comment) are dropped, and the comment is cleaned as if the
    section were not there. *)
Theorem brief_section_is_dropped :
  forall (raw : string) (pre mid rest : list string) (b : string),
    split nl raw = (pre ++ b :: mid ++ rest)%list ->
    is_brief b = true ->
    Forall (fun l => cleaned l <> EmptyString) mid ->
    match rest with
    | [] => True
    | blank :: _ => cleaned blank = EmptyString
    end ->
    cleanup_comment raw = PyStr.join "<br>" (clean_lines (run (pre ++ rest))).
Proof.
  intros raw pre mid rest b Hs Hb Hmid Hrest.
  unfold cleanup_comment. rewrite Hs. f_equal. unfold run.
  rewrite !fold_left_app. cbn [fold_left]. rewrite fold_left_app.
  set (st := fold_left body pre init).
  assert (H1 : clean_lines (body st b) = clean_lines st
               /\ is_brief_comment (body st b) = true)
    by (rewrite body_cases, Hb; auto).
  destruct H1 as [H1 H2].
  destruct (fold_body_in_brief mid _ Hmid H2) as [H3 H4].
  destruct rest as [|blank rest].
  - cbn [fold_left]. now rewrite H3, H1.
  - cbn [fold_left].
    assert (E : body (fold_left body mid (body st b)) blank = body st blank).
    { rewrite (body_cases (fold_left body mid (body st b)) blank),
        (body_cases st blank).
      unfold is_brief. rewrite Hrest.
      cbn [startswith String.prefix orb String.eqb].
      now rewrite H3, H1. }
    now rewrite E.
Qed.

Lemma brief_section_is_dropped_witness :
  cleanup_comment doxygen
  = PyStr.join "<br>"
      (clean_lines (run [EmptyString; " Full text here."; EmptyString;
                         " More text."; "*/"])).
Proof.
  apply (brief_section_is_dropped doxygen [] []
           [EmptyString; " Full text here."; EmptyString;
            " More text."; "*/"]
           "/** @brief Does X.");
    [reflexivity | reflexivity | constructor | reflexivity].
Defined.

(** *** Stripping *)

Lemma lstrip_head (s r : string) (c : ascii) :
  lstrip s = String c r -> isspace c = false.
Proof.
  induction s as [|x s IH]; cbn [lstrip]; [discriminate|].
  destruct (isspace x) eqn:E; [exact IH|]. intros [= <- <-]. exact E.
Qed.

Lemma lstrip_fixed (s : string) :
  match s with String c _ => isspace c = false | EmptyString => True end ->
  lstrip s = s.
Proof. destruct s as [|c s]; cbn [lstrip]; [reflexivity|]. now intros ->. Qed.

Lemma rstrip_head (s r : string) (c : ascii) :
  rstrip s = String c r -> exists s', s = String c s'.
Proof.
  destruct s as [|x s]; cbn [rstrip]; [discriminate|].
  destruct (rstrip s); [destruct (isspace x); [discriminate|]|];
    intros [= <- <-]; eauto.
Qed.

Lemma rstrip_idempotent (s : string) : rstrip (rstrip s) = rstrip s.
Proof.
  induction s as [|c s IH]; [reflexivity|]. cbn [rstrip].
  destruct (rstrip s) as [|c' r] eqn:E.
  - destruct (isspace c) eqn:Ec; [reflexivity|]. cbn [rstrip]. now rewrite Ec.
  - cbn [rstrip]. cbn [rstrip] in IH. now rewrite IH.
Qed.

Lemma strip_fixed (s : string) : strip (strip s) = strip s.
Proof.
  unfold strip.
  assert (H : lstrip (rstrip (lstrip s)) = rstrip (lstrip s)).
  { apply lstrip_fixed. destruct (rstrip (lstrip s)) as [|c r] eqn:E; [exact I|].
    destruct (rstrip_head _ _ _ E) as [s' Hs'].
    exact (lstrip_head _ _ _ Hs'). }
  rewrite H. apply rstrip_idempotent.
Qed.

Lemma subsequence_skip (sub l : list string) (y : string) :
  subsequence sub l -> subsequence sub (y :: l).
Proof. destruct sub; intros H; simpl; [exact I | right; exact H]. Qed.

(** What the loop appends, for any state it starts from. *)
Lemma fold_body_appends (lines : list string) (st : loop_state) :
  exists sub,
    clean_lines (fold_left body lines st) = (clean_lines st ++ sub)%list
    /\ subsequence sub (map cleaned lines)
    /\ Forall (fun l => exists line,
                   In line lines /\ l = cleaned line
                   /\ is_brief line = false /\ l <> EmptyString) sub.
Proof.
  revert st. induction lines as [|line lines IH]; intros st.
  - exists []. cbn. rewrite app_nil_r. auto.
  - cbn [fold_left]. destruct (IH (body st line)) as (sub & H1 & H2 & H3).
    assert (H3' : Forall (fun l => exists line0,
                             In line0 (line :: lines) /\ l = cleaned line0
                             /\ is_brief line0 = false /\ l <> EmptyString)
                         sub).
    { eapply Forall_impl; [|exact H3].
      intros l (ln & Hin & Hrest). exists ln. split; [now right | exact Hrest]. }
    rewrite H1, body_cases.
    destruct (is_brief line) eqn:Hb;
      [|destruct (String.eqb_spec (cleaned line) EmptyString) as [He|He];
        [|destruct (is_brief_comment st)]];
      cbn [clean_lines map];
      try (exists sub; split; [reflexivity|];
           split; [now apply subsequence_skip | exact H3']).
    exists (cleaned line :: sub). rewrite <- app_assoc.
    split; [reflexivity|]. split; [simpl; left; auto|].
    constructor; [|exact H3'].
    exists line. split; [now left | auto].
Qed.

(** X4.  The lines [cleanup_comment] joins are taken from the raw lines
    in their order, none twice and none invented (a subsequence of the
    raw lines cut at offset 3 and stripped); each of them is left
    unchanged by [strip], so it neither begins nor ends with white space,
    and none begins with [@brief] or [/brief]. *)
Theorem emitted_lines_keep_order_and_are_stripped :
  forall raw : string,
    cleanup_comment raw
    = PyStr.join "<br>" (clean_lines (run (split nl raw)))
    /\ subsequence (clean_lines (run (split nl raw)))
                   (map cleaned (split nl raw))
    /\ Forall (fun l => strip l = l
                        /\ startswith l "@brief" = false
                        /\ startswith l "/brief" = false)
              (clean_lines (run (split nl raw))).
Proof.
  intros raw. split; [reflexivity|]. unfold run.
  destruct (fold_body_appends (split nl raw) init) as (sub & H1 & H2 & H3).
  cbn [clean_lines init app] in H1. rewrite H1. split; [exact H2|].
  eapply Forall_impl; [|exact H3].
  intros l (line & _ & -> & Hb & _). split.
  - unfold cleaned. apply strip_fixed.
  - unfold is_brief in Hb. now apply orb_false_iff in Hb.
Qed.

(** *** Line breaks *)

Lemma free_of_app (p : ascii -> bool) (a b : string) :
  free_of p (a ++ b) = free_of p a && free_of p b.
Proof.
  induction a as [|c a IH]; [reflexivity|]. cbn [append free_of].
  now rewrite IH, andb_assoc.
Qed.

Lemma free_of_middle (p : ascii -> bool) (a s b : string) :
  free_of p (a ++ s ++ b) = true -> free_of p s = true.
Proof.
  rewrite !free_of_app. intros H.
  apply andb_true_iff in H as [_ H]. now apply andb_true_iff in H as [H _].
Qed.

Lemma split_pieces_free (sep : ascii) (s : string) :
  Forall (fun l => free_of (fun c => Ascii.eqb c sep) l = true) (split sep s).
Proof.
  induction s as [|c s IH]; cbn [split]; [repeat constructor|].
  destruct (Ascii.eqb c sep) eqn:E; [constructor; [reflexivity | exact IH]|].
  destruct (split sep s) as [|h t]; [repeat constructor; cbn; now rewrite E|].
  inversion IH as [|? ? Hh Ht]; subst.
  constructor; [cbn; now rewrite E, Hh | exact Ht].
Qed.

Lemma cleaned_free (p : ascii -> bool) (line : string) :
  free_of p line = true -> free_of p (cleaned line) = true.
Proof.
  intros H. unfold cleaned.
  destruct (slice_from_suffix 3 line) as [a Ha].
  destruct (strip_substring (slice_from 3 line)) as (a2 & b2 & Hs).
  rewrite Ha, free_of_app in H. apply andb_true_iff in H as [_ H].
  rewrite Hs in H. exact (free_of_middle _ _ _ _ H).
Qed.

Lemma join_free (p : ascii -> bool) (sep : string) (ls : list string) :
  free_of p sep = true ->
  Forall (fun l => free_of p l = true) ls ->
  free_of p (PyStr.join sep ls) = true.
Proof.
  intros Hsep H. induction H as [|l t Hl Ht IH]; [reflexivity|].
  destruct t as [|l' t]; [exact Hl|].
  rewrite join_cons2, !free_of_app, Hl, Hsep, IH. reflexivity.
Qed.

(** X5.  The markup [cleanup_comment] returns is one line: whatever the
    raw comment, it holds no newline character. *)
Theorem cleanup_comment_has_no_newline :
  forall raw : string, free_of is_newline (cleanup_comment raw) = true.
Proof.
  intros raw. unfold cleanup_comment. apply join_free; [reflexivity|].
  apply Forall_forall. intros l Hl.
  destruct (run_emits _ _ _ Hl) as [[] | (_ & line & Hin & ->)].
  apply (cleaned_free is_newline line).
  pose proof (split_pieces_free nl raw) as H.
  rewrite Forall_forall in H. exact (H line Hin).
Qed.

(** ** More on the discovery *)

Import Scenario2.

Section MoreDiscovery.

Context {P : path_module}.
Variable w : world.
Variable clang_binary : string.

Local Abbreviation version_str := (slice_to_neg 2 (CLANG_VERSION w)).

Lemma unknown_platform_no_suffixes :
  system w <> "Windows" -> system w <> "Linux" -> system w <> "Darwin" ->
  dict_get suffixes (system w) = None.
Proof.
  intros H1 H2 H3. unfold suffixes. cbn [dict_get].
  destruct (String.eqb_spec "Windows" (system w)); [congruence|].
  destruct (String.eqb_spec "Linux" (system w)); [congruence|].
  destruct (String.eqb_spec "Darwin" (system w)); [congruence|].
  reflexivity.
Qed.

Lemma probe_found_checked (version : string) (n : nat)
    (c : string * string) (d : string) :
  probe w clang_binary version n c = Found d ->
  path_isdir w d = true
  /\ path_exists w (join d [file_of w version c]) = true.
Proof.
  unfold probe, verify.
  destruct (query w clang_binary (file_of w version c)); [|discriminate].
  destruct (check_output w n i); [|discriminate].
  destruct (truthy (strip text)); [|discriminate].
  destruct (output_dir w (strip text)) as [d'|]; [|discriminate].
  destruct (path_isdir w d') eqn:E1; [|discriminate].
  destruct (path_exists w (join d' _)) eqn:E2; [|discriminate].
  intros [= <-]. auto.
Qed.

Lemma query_command (file : string) (inv : invocation) :
  query w clang_binary file = Some inv ->
  exists arg, cmd inv = [clang_binary; arg].
Proof.
  unfold query. cbv zeta.
  destruct (String.eqb (system w) "Darwin");
    [intros H; injection H as H; subst inv; eexists; reflexivity|].
  destruct (String.eqb (system w) "Windows");
    [intros H; injection H as H; subst inv; eexists; reflexivity|].
  destruct (String.eqb (system w) "Linux");
    [intros H; injection H as H; subst inv; eexists; reflexivity|].
  discriminate.
Qed.

Lemma queries_bound (version : string) (cs : list (string * string)) :
  List.length (queries w clang_binary version cs) <= List.length cs
  /\ Forall (fun inv => exists arg, cmd inv = [clang_binary; arg])
            (queries w clang_binary version cs).
Proof.
  induction cs as [|c cs [IH1 IH2]]; [split; [reflexivity | constructor]|].
  unfold queries in *. cbn [flat_map].
  destruct (query w clang_binary (file_of w version c)) as [inv|] eqn:E.
  - cbn [app List.length]. split; [lia|].
    constructor; [exact (query_command _ _ E) | exact IH2].
  - cbn [app List.length]. split; [lia | exact IH2].
Qed.

Lemma scan_queried_length (version : string) (n : nat)
    (cs : list (string * string)) :
  List.length (queried (scan w clang_binary version n cs)) <= List.length cs.
Proof.
  revert n. induction cs as [|c cs IH]; intros n; [reflexivity|].
  cbn [scan]. destruct (probe w clang_binary version n c).
  - cbn. lia.
  - specialize (IH (S n)).
    destruct (scan w clang_binary version (S n) cs) as [passed hit].
    unfold queried in *. cbn [fst snd] in *.
    rewrite <- app_comm_cons. cbn [List.length]. lia.
  - cbn. lia.
Qed.

Lemma at_most_four_candidates (sufs names : list string) :
  dict_get suffixes (system w) = Some sufs ->
  dict_get possible_filenames (system w) = Some names ->
  List.length (candidates sufs names) <= 4.
Proof.
  unfold suffixes, possible_filenames. cbn [dict_get].
  destruct (String.eqb "Windows" (system w));
    [intros [= <-] [= <-]; cbn; lia|].
  destruct (String.eqb "Linux" (system w));
    [intros [= <-] [= <-]; cbn; lia|].
  destruct (String.eqb "Darwin" (system w));
    [intros [= <-] [= <-]; cbn; lia | discriminate].
Qed.

Lemma scan_stationary (version : string) (cs : list (string * string))
    (n m : nat) :
  (forall i j inv, check_output w i inv = check_output w j inv) ->
  scan w clang_binary version n cs = scan w clang_binary version m cs.
Proof.
  intros H. revert n m. induction cs as [|c cs IH]; intros n m;
    [reflexivity|].
  cbn [scan].
  assert (Hp : probe w clang_binary version n c
               = probe w clang_binary version m c).
  { unfold probe. destruct (query w clang_binary (file_of w version c));
      [|reflexivity]. now rewrite (H n m). }
  rewrite Hp, (IH (S n) (S m)). reflexivity.
Qed.

End MoreDiscovery.

(** X6.  On a platform the two dicts do not know (anything but Windows,
    Linux and Darwin), a call whose user hint is not used raises
    [KeyError] with the platform's name: it does not return [None], it
    invokes no compiler and leaves [libclang_name] as it was. *)
Theorem unknown_platform_raises_key_error :
  forall (P : path_module) (w : world)
         (clang_binary libclang_path : string) (st : state),
    hint_usable w libclang_path = false ->
    system w <> "Windows" -> system w <> "Linux" -> system w <> "Darwin" ->
    fst (find_libclang_dir w clang_binary libclang_path st)
    = Raise (KeyError (system w))
    /\ libclang_name (snd (find_libclang_dir w clang_binary libclang_path st))
       = libclang_name st
    /\ calls (snd (find_libclang_dir w clang_binary libclang_path st))
       = calls st.
Proof.
  intros P w clang_binary libclang_path st Hh H1 H2 H3.
  destruct (find_libclang_dir_run w clang_binary libclang_path st) as [l ->].
  rewrite Hh, (search_unknown_platform w clang_binary _
                 (unknown_platform_no_suffixes w H1 H2 H3)).
  repeat split.
Qed.

Lemma unknown_platform_raises_key_error_witness :
  fst (find_libclang_dir (P := Posix.posixpath) freebsd
         "clang" "/nowhere/libclang.so" fresh)
  = Raise (KeyError "FreeBSD")
  /\ libclang_name (snd (find_libclang_dir (P := Posix.posixpath) freebsd
                           "clang" "/nowhere/libclang.so" fresh))
     = None
  /\ calls (snd (find_libclang_dir (P := Posix.posixpath) freebsd
                   "clang" "/nowhere/libclang.so" fresh))
     = [].
Proof.
  apply (unknown_platform_raises_key_error
           Posix.posixpath freebsd "clang" "/nowhere/libclang.so" fresh);
    [reflexivity | discriminate | discriminate | discriminate].
Defined.

(** X7.  A directory is returned only after a check on disk: when
    [find_libclang_dir] returns a directory, either the user hint exists
    and the directory is its [dirname], or the directory passed
    [path.isdir] and the file then recorded as [libclang_name] exists in
    it. *)
Theorem returned_directory_was_checked :
  forall (P : path_module) (w : world)
         (clang_binary libclang_path : string) (st : state) (d : string),
    fst (find_libclang_dir w clang_binary libclang_path st)
    = Return (Some d) ->
    (path_exists w libclang_path = true
     /\ d = dirname libclang_path
     /\ libclang_name
          (snd (find_libclang_dir w clang_binary libclang_path st))
        = Some (basename libclang_path))
    \/ (exists file,
           libclang_name
             (snd (find_libclang_dir w clang_binary libclang_path st))
           = Some file
           /\ path_isdir w d = true
           /\ path_exists w (join d [file]) = true).
Proof.
  intros P w clang_binary libclang_path st d Hr.
  destruct (find_libclang_dir_summary w clang_binary libclang_path st)
    as [(Hh & H1 & H2) | [(Hh & c & n & d' & Hp & H1 & H2 & _)
                         | (_ & H1 & _)]].
  - left. rewrite H1 in Hr. injection Hr as <-.
    unfold hint_usable, try_load_from_user_hint in Hh.
    destruct (path_exists w libclang_path); [auto|].
    now rewrite andb_false_r in Hh.
  - right. rewrite H1 in Hr. injection Hr as <-.
    exists (file_of w (slice_to_neg 2 (CLANG_VERSION w)) c).
    split; [exact H2|]. exact (probe_found_checked w clang_binary _ _ _ _ Hp).
  - destruct H1 as [H1 | [e H1]]; rewrite H1 in Hr; discriminate.
Qed.

Lemma returned_directory_was_checked_witness :
  exists file,
    libclang_name (snd (find_libclang_dir (P := Posix.posixpath) linux
                          "clang" EmptyString fresh))
    = Some file
    /\ path_isdir linux llvm_lib = true
    /\ path_exists linux (Posix.join llvm_lib [file]) = true.
Proof.
  destruct (returned_directory_was_checked
              Posix.posixpath linux "clang" EmptyString fresh llvm_lib
              ltac:(vm_compute; reflexivity))
    as [(H & _) | H]; [discriminate H | exact H].
Defined.

(** X8.  One call makes at most four compiler invocations, each of them
    the given compiler binary with one argument; the invocations and the
    log records of earlier calls are kept, new ones are only added after
    them. *)
Theorem at_most_four_invocations :
  forall (P : path_module) (w : world)
         (clang_binary libclang_path : string) (st : state),
  exists new records,
    calls (snd (find_libclang_dir w clang_binary libclang_path st))
    = (calls st ++ new)%list
    /\ log (snd (find_libclang_dir w clang_binary libclang_path st))
       = (log st ++ records)%list
    /\ List.length new <= 4
    /\ Forall (fun inv => exists arg, cmd inv = [clang_binary; arg]) new.
Proof.
  intros P w clang_binary libclang_path st.
  destruct (find_libclang_dir_run w clang_binary libclang_path st) as [l ->].
  destruct (hint_usable w libclang_path).
  - exists [], (l ++ [(INFO, (" using user-provided libclang: '"
                             ++ libclang_path ++ "'")%string)])%list.
    cbn [snd calls log]. rewrite app_nil_r.
    repeat split; [cbn; lia | constructor].
  - destruct (dict_get suffixes (system w)) as [sufs|] eqn:Hs.
    + destruct (same_platforms _ _ Hs) as [names Hn].
      destruct (search_run w clang_binary sufs names
                  (mkState (libclang_name st) (log st ++ l)%list (calls st))
                  Hs Hn) as (l' & -> & _).
      cbn [snd calls log].
      eexists. exists (l ++ l')%list.
      split; [reflexivity|]. split; [now rewrite app_assoc|].
      destruct (queries_bound w clang_binary
                  (slice_to_neg 2 (CLANG_VERSION w))
                  (queried (scan w clang_binary
                              (slice_to_neg 2 (CLANG_VERSION w))
                              (List.length (calls st))
                              (candidates sufs names)))) as [B1 B2].
      split; [|exact B2].
      pose proof (scan_queried_length w clang_binary
                    (slice_to_neg 2 (CLANG_VERSION w))
                    (List.length (calls st)) (candidates sufs names)).
      pose proof (at_most_four_candidates w sufs names Hs Hn). lia.
    + rewrite (search_unknown_platform w clang_binary _ Hs).
      exists [], l. cbn [snd calls log]. rewrite app_nil_r.
      repeat split; [cbn; lia | constructor].
Qed.

(** X9.  With a compiler whose answer to a command does not change from
    one invocation to the next, the discovery is idempotent: a second
    call with the same arguments, made in the state the first call left,
    returns (or raises) what the first call did and leaves
    [libclang_name] as the first call left it. *)
Theorem discovery_is_idempotent :
  forall (P : path_module) (w : world)
         (clang_binary libclang_path : string) (st : state),
    (forall i j inv, check_output w i inv = check_output w j inv) ->
    fst (find_libclang_dir w clang_binary libclang_path
           (snd (find_libclang_dir w clang_binary libclang_path st)))
    = fst (find_libclang_dir w clang_binary libclang_path st)
    /\ libclang_name
         (snd (find_libclang_dir w clang_binary libclang_path
                 (snd (find_libclang_dir w clang_binary libclang_path st))))
       = libclang_name
           (snd (find_libclang_dir w clang_binary libclang_path st)).
Proof.
  intros P w clang_binary libclang_path st Hstat.
  set (st1 := snd (find_libclang_dir w clang_binary libclang_path st)).
  destruct (hint_usable w libclang_path) eqn:Hh.
  - destruct (find_libclang_dir_summary w clang_binary libclang_path st)
      as [(_ & H1 & H2) | [(Hh' & _) | (Hh' & _)]]; [|congruence..].
    destruct (find_libclang_dir_summary w clang_binary libclang_path st1)
      as [(_ & K1 & K2) | [(Hh' & _) | (Hh' & _)]]; [|congruence..].
    fold st1 in H2. rewrite K1, K2, H1, H2. auto.
  - destruct (platform_candidates w) as [cs|] eqn:Hc.
    + destruct (find_libclang_dir_scan w clang_binary libclang_path st
                  cs Hh Hc) as (H1 & H2 & _).
      destruct (find_libclang_dir_scan w clang_binary libclang_path st1
                  cs Hh Hc) as (K1 & K2 & _).
      rewrite (scan_stationary w clang_binary _ cs
                 (List.length (calls st1)) (List.length (calls st)) Hstat)
        in K1, K2.
      fold st1 in H2. rewrite K1, K2, H1, H2.
      split; [reflexivity|].
      destruct (snd (scan w clang_binary (slice_to_neg 2 (CLANG_VERSION w))
                       (List.length (calls st)) cs))
        as [[c [d| |e]]|]; reflexivity.
    + destruct (find_libclang_dir_unknown_platform w clang_binary
                  libclang_path st Hh Hc) as [H1 H2].
      destruct (find_libclang_dir_unknown_platform w clang_binary
                  libclang_path st1 Hh Hc) as [K1 K2].
      fold st1 in H2. rewrite K1, K2, H1. auto.
Qed.

Lemma discovery_is_idempotent_witness :
  fst (find_libclang_dir (P := Posix.posixpath) linux "clang" EmptyString
         (snd (find_libclang_dir (P := Posix.posixpath) linux
                 "clang" EmptyString fresh)))
  = Return (Some llvm_lib)
  /\ libclang_name
       (snd (find_libclang_dir (P := Posix.posixpath) linux
               "clang" EmptyString
               (snd (find_libclang_dir (P := Posix.posixpath) linux
                       "clang" EmptyString fresh))))
     = Some "libclang.so".
Proof.
  destruct (discovery_is_idempotent Posix.posixpath linux
              "clang" EmptyString fresh (fun _ _ _ => eq_refl)) as [H1 H2].
  split.
  - rewrite H1. vm_compute. reflexivity.
  - rewrite H2. vm_compute. reflexivity.
Defined.

(** X10.  A user hint that is not used (it is empty, does not exist, or
    has no directory part) has no influence on the outcome: the call
    returns or raises, records and invokes exactly what the call without
    any hint does. *)
Theorem unused_hint_changes_nothing :
  forall (P : path_module) (w : world)
         (clang_binary libclang_path : string) (st : state),
    hint_usable w libclang_path = false ->
    fst (find_libclang_dir w clang_binary libclang_path st)
    = fst (find_libclang_dir w clang_binary EmptyString st)
    /\ libclang_name (snd (find_libclang_dir w clang_binary libclang_path st))
       = libclang_name (snd (find_libclang_dir w clang_binary EmptyString st))
    /\ calls (snd (find_libclang_dir w clang_binary libclang_path st))
       = calls (snd (find_libclang_dir w clang_binary EmptyString st)).
Proof.
  intros P w clang_binary libclang_path st Hh.
  destruct (platform_candidates w) as [cs|] eqn:Hc.
  - destruct (find_libclang_dir_scan w clang_binary libclang_path st
                cs Hh Hc) as (H1 & H2 & H3 & _).
    destruct (find_libclang_dir_scan w clang_binary EmptyString st
                cs eq_refl Hc) as (K1 & K2 & K3 & _).
    rewrite H1, H2, H3, K1, K2, K3. auto.
  - destruct (find_libclang_dir_run w clang_binary libclang_path st)
      as [l Hl].
    destruct (find_libclang_dir_run w clang_binary EmptyString st)
      as [l' Hl'].
    rewrite Hh in Hl. change (hint_usable w EmptyString) with false in Hl'.
    assert (Hs : dict_get suffixes (system w) = None).
    { unfold platform_candidates in Hc.
      destruct (dict_get suffixes (system w)) as [sufs|] eqn:Hs;
        [|reflexivity].
      destruct (same_platforms _ _ Hs) as [names Hn]. rewrite Hn in Hc.
      discriminate. }
    rewrite (search_unknown_platform w clang_binary _ Hs) in Hl.
    rewrite (search_unknown_platform w clang_binary _ Hs) in Hl'.
    rewrite Hl, Hl'. auto.
Qed.

Lemma unused_hint_changes_nothing_witness :
  fst (find_libclang_dir (P := Posix.posixpath) linux
         "clang" "/opt/missing/libclang.so" fresh)
  = fst (find_libclang_dir (P := Posix.posixpath) linux
           "clang" EmptyString fresh)
  /\ libclang_name (snd (find_libclang_dir (P := Posix.posixpath) linux
                           "clang" "/opt/missing/libclang.so" fresh))
     = libclang_name (snd (find_libclang_dir (P := Posix.posixpath) linux
                             "clang" EmptyString fresh))
  /\ calls (snd (find_libclang_dir (P := Posix.posixpath) linux
                   "clang" "/opt/missing/libclang.so" fresh))
     = calls (snd (find_libclang_dir (P := Posix.posixpath) linux
                     "clang" EmptyString fresh)).
Proof.
  apply (unused_hint_changes_nothing Posix.posixpath linux
           "clang" "/opt/missing/libclang.so" fresh).
  reflexivity.
Defined.

(** ** The search, platform by platform *)

Lemma platform_candidates_of (w : world) (cs : list (string * string))
    (sufs names : list string) :
  dict_get suffixes (system w) = Some sufs ->
  dict_get possible_filenames (system w) = Some names ->
  cs = candidates sufs names ->
  platform_candidates w = Some cs.
Proof. intros Hs Hn ->. unfold platform_candidates. now rewrite Hs, Hn. Qed.

(** X11.  On macOS there is one candidate and its command does not name
    it: when the user hint is not used and [clang -print-file-name=]
    prints [text], the call succeeds exactly when the stripped text is
    non-empty, the text with [../..] joined to it is a directory, and
    [libclang.dylib] exists in that directory; it then returns that
    directory.  Otherwise it returns [None]. *)
Theorem darwin_success_criterion :
  forall (P : path_module) (w : world)
         (clang_binary libclang_path : string) (st : state) (text : string),
    system w = "Darwin" ->
    hint_usable w libclang_path = false ->
    check_output w (List.length (calls st))
      (mkInvocation [clang_binary; "-print-file-name="] None None None)
    = Output text ->
    (if truthy (strip text)
        && path_isdir w (join (strip text) [".."; ".."])
        && path_exists w (join (join (strip text) [".."; ".."])
                               ["libclang.dylib"])
     then
       fst (find_libclang_dir w clang_binary libclang_path st)
       = Return (Some (join (strip text) [".."; ".."]))
       /\ libclang_name
            (snd (find_libclang_dir w clang_binary libclang_path st))
          = Some "libclang.dylib"
     else
       fst (find_libclang_dir w clang_binary libclang_path st) = Return None
       /\ libclang_name
            (snd (find_libclang_dir w clang_binary libclang_path st))
          = libclang_name st)
    /\ calls (snd (find_libclang_dir w clang_binary libclang_path st))
       = (calls st
          ++ [mkInvocation [clang_binary; "-print-file-name="]
                           None None None])%list.
Proof.
  intros P w clang_binary libclang_path st text Hw Hh Ho.
  assert (Hc : platform_candidates w = Some [(".dylib", "libclang")])
    by (unfold platform_candidates; rewrite Hw; reflexivity).
  destruct (find_libclang_dir_scan w clang_binary libclang_path st _ Hh Hc)
    as (H1 & H2 & H3 & _).
  assert (Hq : forall file,
             query w clang_binary file
             = Some (mkInvocation [clang_binary; "-print-file-name="]
                                  None None None))
    by (intros file; unfold query; rewrite Hw; reflexivity).
  assert (Hf : file_of w (slice_to_neg 2 (CLANG_VERSION w))
                       (".dylib", "libclang") = "libclang.dylib")
    by (unfold file_of, candidate_file; rewrite Hw; reflexivity).
  assert (Hp : probe w clang_binary (slice_to_neg 2 (CLANG_VERSION w))
                     (List.length (calls st)) (".dylib", "libclang")
               = if truthy (strip text)
                    && path_isdir w (join (strip text) [".."; ".."])
                    && path_exists w (join (join (strip text) [".."; ".."])
                                           ["libclang.dylib"])
                 then Found (join (strip text) [".."; ".."])
                 else NotFound).
  { unfold probe. rewrite Hf, Hq, Ho. unfold verify, output_dir.
    rewrite Hw. cbn [String.eqb Ascii.eqb Bool.eqb].
    destruct (truthy (strip text)); [|reflexivity].
    destruct (path_isdir w _); [|reflexivity].
    destruct (path_exists w _); reflexivity. }
  cbn [scan] in H1, H2, H3. rewrite Hp in H1, H2, H3.
  unfold queried, queries in H3.
  destruct (truthy (strip text)
            && path_isdir w (join (strip text) [".."; ".."])
            && path_exists w (join (join (strip text) [".."; ".."])
                                   ["libclang.dylib"]));
    cbn [fst snd app flat_map] in H1, H2, H3;
    rewrite Hq in H3; rewrite ?Hf in H2; auto.
Qed.

Lemma darwin_success_criterion_witness :
  fst (find_libclang_dir (P := Posix.posixpath) darwin_silent
         "clang" EmptyString fresh)
  = Return None
  /\ calls (snd (find_libclang_dir (P := Posix.posixpath) darwin_silent
                   "clang" EmptyString fresh))
     = [mkInvocation ["clang"; "-print-file-name="] None None None].
Proof.
  destruct (darwin_success_criterion Posix.posixpath darwin_silent
              "clang" EmptyString fresh (String nl EmptyString)
              eq_refl eq_refl eq_refl) as [[H1 _] H2].
  split; [exact H1 | exact H2].
Defined.

(** The file looked for on Windows, first hit among the four names in
    the order of the loops. *)
Lemma windows_files (w : world) (version : string) :
  system w = "Windows" ->
  map (file_of w version)
      [(".dll", "libclang"); (".dll", "clang");
       (".lib", "libclang"); (".lib", "clang")]
  = ["libclang.dll"; "clang.dll"; "libclang.lib"; "clang.lib"].
Proof.
  intros Hw. unfold file_of, candidate_file. rewrite Hw. reflexivity.
Qed.

(** X12.  On Windows the four candidates are asked with one and the same
    command, [clang -print-prog-name=] with piped input and errors and a
    hidden window.  When the user hint is not used and the compiler
    prints [text] each time, with a non-empty stripped text whose
    normalised form is a directory, the call returns that directory if
    one of [libclang.dll], [clang.dll], [libclang.lib], [clang.lib]
    exists in it, and records the first of them, in this order, that
    does; it returns [None] if none exists. *)
Theorem windows_first_existing_file :
  forall (P : path_module) (w : world)
         (clang_binary libclang_path : string) (st : state) (text : string),
    system w = "Windows" ->
    hint_usable w libclang_path = false ->
    (forall k,
        k < 4 ->
        check_output w (List.length (calls st) + k)
          (mkInvocation [clang_binary; "-print-prog-name="]
                        (Some PIPE) (Some PIPE) (Some (mkStartup 1 0)))
        = Output text) ->
    strip text <> EmptyString ->
    path_isdir w (normpath (strip text)) = true ->
    (forall file,
        query w clang_binary file
        = Some (mkInvocation [clang_binary; "-print-prog-name="]
                             (Some PIPE) (Some PIPE) (Some (mkStartup 1 0))))
    /\ match List.find
               (fun file =>
                  path_exists w (join (normpath (strip text)) [file]))
               ["libclang.dll"; "clang.dll"; "libclang.lib"; "clang.lib"]
       with
       | Some file =>
           fst (find_libclang_dir w clang_binary libclang_path st)
           = Return (Some (normpath (strip text)))
           /\ libclang_name
                (snd (find_libclang_dir w clang_binary libclang_path st))
              = Some file
       | None =>
           fst (find_libclang_dir w clang_binary libclang_path st)
           = Return None
           /\ libclang_name
                (snd (find_libclang_dir w clang_binary libclang_path st))
              = libclang_name st
           /\ List.length
                (calls (snd (find_libclang_dir w clang_binary
                               libclang_path st)))
              = List.length (calls st) + 4
       end.
Proof.
  intros P w clang_binary libclang_path st text Hw Hh Ho Ht Hd.
  assert (Hq : forall file,
             query w clang_binary file
             = Some (mkInvocation [clang_binary; "-print-prog-name="]
                                  (Some PIPE) (Some PIPE)
                                  (Some (mkStartup 1 0))))
    by (intros file; unfold query; rewrite Hw; reflexivity).
  split; [exact Hq|].
  assert (Hc : platform_candidates w
               = Some [(".dll", "libclang"); (".dll", "clang");
                       (".lib", "libclang"); (".lib", "clang")])
    by (unfold platform_candidates; rewrite Hw; reflexivity).
  destruct (find_libclang_dir_scan w clang_binary libclang_path st _ Hh Hc)
    as (H1 & H2 & H3 & _).
  pose proof (windows_files w (slice_to_neg 2 (CLANG_VERSION w)) Hw) as Hf.
  cbn [map] in Hf. injection Hf as F1 F2 F3 F4.
  apply truthy_true in Ht.
  assert (Hp : forall k c,
             k < 4 ->
             probe w clang_binary (slice_to_neg 2 (CLANG_VERSION w))
                   (List.length (calls st) + k) c
             = if path_exists w
                    (join (normpath (strip text))
                          [file_of w (slice_to_neg 2 (CLANG_VERSION w)) c])
               then Found (normpath (strip text)) else NotFound).
  { intros k c Hk. unfold probe. rewrite Hq, (Ho k Hk).
    unfold verify, output_dir. rewrite Hw, Ht.
    cbn [String.eqb Ascii.eqb Bool.eqb]. rewrite Hd. reflexivity. }
  assert (Hp' : forall m c,
             (m = List.length (calls st)
              \/ m = S (List.length (calls st))
              \/ m = S (S (List.length (calls st)))
              \/ m = S (S (S (List.length (calls st))))) ->
             probe w clang_binary (slice_to_neg 2 (CLANG_VERSION w)) m c
             = if path_exists w
                    (join (normpath (strip text))
                          [file_of w (slice_to_neg 2 (CLANG_VERSION w)) c])
               then Found (normpath (strip text)) else NotFound).
  { intros m c Hm.
    replace m with (List.length (calls st) + (m - List.length (calls st)))
      by lia.
    apply Hp. lia. }
  cbn [scan] in H1, H2, H3.
  rewrite !Hp' in H1, H2, H3 by auto 6.
  rewrite F1, F2, F3, F4 in H1, H2, H3.
  cbn [List.find].
  destruct (path_exists w (join (normpath (strip text)) ["libclang.dll"]));
    [cbn [fst snd] in H1, H2; rewrite ?F1 in H2; auto|].
  destruct (path_exists w (join (normpath (strip text)) ["clang.dll"]));
    [cbn [fst snd] in H1, H2; rewrite ?F2 in H2; auto|].
  destruct (path_exists w (join (normpath (strip text)) ["libclang.lib"]));
    [cbn [fst snd] in H1, H2; rewrite ?F3 in H2; auto|].
  destruct (path_exists w (join (normpath (strip text)) ["clang.lib"]));
    [cbn [fst snd] in H1, H2; rewrite ?F4 in H2; auto|].
  cbn [fst snd] in H1, H2, H3. split; [exact H1|]. split; [exact H2|].
  rewrite H3. unfold queried, queries. cbn [fst snd app flat_map].
  rewrite !Hq. rewrite length_app. reflexivity.
Qed.

Lemma windows_first_existing_file_witness :
  fst (find_libclang_dir (P := Posix.posixpath) msys2
         "clang" EmptyString fresh)
  = Return (Some "/mingw64/bin")
  /\ libclang_name (snd (find_libclang_dir (P := Posix.posixpath) msys2
                           "clang" EmptyString fresh))
     = Some "clang.dll".
Proof.
  destruct (windows_first_existing_file Posix.posixpath msys2
              "clang" EmptyString fresh
              ("/mingw64/bin" ++ String nl EmptyString)
              eq_refl eq_refl (fun _ _ => eq_refl)
              ltac:(vm_compute; discriminate) eq_refl) as [_ H].
  exact H.
Defined.

(** X13.  On Linux the command of every candidate names its file, and
    the placeholder [$version] of a candidate name is replaced by the
    configured version without its last two characters: the files asked
    for are, in this order, [libclang-V.so], [libclang.so],
    [libclang-V.so.1] and [libclang.so.1], each with the command
    [clang -print-file-name=FILE] and nothing redirected. *)
Theorem linux_commands_name_the_file :
  forall (P : path_module) (w : world) (clang_binary : string),
    system w = "Linux" ->
    platform_candidates w
    = Some [(".so", "libclang-$version"); (".so", "libclang");
            (".so.1", "libclang-$version"); (".so.1", "libclang")]
    /\ map (file_of w (slice_to_neg 2 (CLANG_VERSION w)))
           [(".so", "libclang-$version"); (".so", "libclang");
            (".so.1", "libclang-$version"); (".so.1", "libclang")]
       = [ "libclang-" ++ slice_to_neg 2 (CLANG_VERSION w) ++ ".so";
           "libclang.so";
           "libclang-" ++ slice_to_neg 2 (CLANG_VERSION w) ++ ".so.1";
           "libclang.so.1" ]
    /\ (forall file,
           query w clang_binary file
           = Some (mkInvocation [clang_binary; "-print-file-name=" ++ file]
                                None None None))
    /\ (String.length (CLANG_VERSION w) <= 2 ->
        file_of w (slice_to_neg 2 (CLANG_VERSION w))
                (".so", "libclang-$version")
        = "libclang-.so").
Proof.
  intros P w clang_binary Hw.
  split; [unfold platform_candidates; rewrite Hw; reflexivity|].
  assert (Hf : forall v,
             map (file_of w v)
                 [(".so", "libclang-$version"); (".so", "libclang");
                  (".so.1", "libclang-$version"); (".so.1", "libclang")]
             = [ "libclang-" ++ v ++ ".so"; "libclang.so";
                 "libclang-" ++ v ++ ".so.1"; "libclang.so.1" ]).
  { intros v. unfold file_of, candidate_file. rewrite Hw. reflexivity. }
  split; [apply Hf|].
  split; [intros file; unfold query; rewrite Hw; reflexivity|].
  intros Hlen.
  assert (Hv : slice_to_neg 2 (CLANG_VERSION w) = EmptyString).
  { unfold slice_to_neg.
    replace (String.length (CLANG_VERSION w) - 2) with 0 by lia.
    destruct (CLANG_VERSION w); reflexivity. }
  specialize (Hf (slice_to_neg 2 (CLANG_VERSION w))).
  cbn [map] in Hf. injection Hf as -> _ _ _. now rewrite Hv.
Qed.

Lemma linux_commands_name_the_file_witness :
  map (file_of linux (slice_to_neg 2 (CLANG_VERSION linux)))
      [(".so", "libclang-$version"); (".so", "libclang");
       (".so.1", "libclang-$version"); (".so.1", "libclang")]
  = ["libclang-3.8.so"; "libclang.so"; "libclang-3.8.so.1"; "libclang.so.1"].
Proof.
  exact (proj1 (proj2 (linux_commands_name_the_file
                         Posix.posixpath linux "clang" eq_refl))).
Defined.

(** ** [html.escape] *)

Lemma replace_char_cons (o c : ascii) (new s : string) :
  replace (String c s) (String o EmptyString) new
  = (if Ascii.eqb c o then new else String c EmptyString)
    ++ replace s (String o EmptyString) new.
Proof.
  unfold replace. cbn [replace_from String.prefix String.length Nat.sub].
  destruct (ascii_dec o c) as [->|Hn].
  - rewrite Ascii.eqb_refl. destruct s; reflexivity.
  - destruct (Ascii.eqb_spec c o); [congruence | reflexivity].
Qed.

Lemma replace_char_app (o : ascii) (new a b : string) :
  replace (a ++ b) (String o EmptyString) new
  = replace a (String o EmptyString) new
    ++ replace b (String o EmptyString) new.
Proof.
  induction a as [|c a IH]; [reflexivity|].
  cbn [append]. rewrite !replace_char_cons, IH, append_assoc. reflexivity.
Qed.

(** The chain of [replace] calls rewrites the string character by
    character. *)
Lemma escape_cons (c : ascii) (s : string) :
  Html.escape (String c s) = Html.escape_char c ++ Html.escape s.
Proof.
  unfold Html.escape.
  rewrite (replace_char_cons "&"), !replace_char_app. f_equal.
  unfold Html.escape_char.
  destruct (Ascii.eqb c "&"); [reflexivity|].
  rewrite (replace_char_cons "<").
  destruct (Ascii.eqb c "<"); [reflexivity|].
  cbn [append]. rewrite (replace_char_cons ">").
  destruct (Ascii.eqb c ">"); [reflexivity|].
  cbn [append]. rewrite (replace_char_cons dquote).
  destruct (Ascii.eqb c dquote); [reflexivity|].
  cbn [append]. rewrite (replace_char_cons "'").
  destruct (Ascii.eqb c "'"); reflexivity.
Qed.

Lemma escape_app (a b : string) :
  Html.escape (a ++ b) = Html.escape a ++ Html.escape b.
Proof.
  induction a as [|c a IH]; [reflexivity|].
  cbn [append]. rewrite !escape_cons, IH, append_assoc. reflexivity.
Qed.

Lemma escape_markup_free (s : string) :
  free_of Html.markup (Html.escape s) = true.
Proof.
  induction s as [|c s IH]; [reflexivity|].
  rewrite escape_cons, free_of_app, IH, andb_true_r.
  unfold Html.escape_char, Html.markup.
  destruct (Ascii.eqb c "&"); [reflexivity|].
  destruct (Ascii.eqb c "<") eqn:E1; [reflexivity|].
  destruct (Ascii.eqb c ">") eqn:E2; [reflexivity|].
  destruct (Ascii.eqb c dquote) eqn:E3; [reflexivity|].
  destruct (Ascii.eqb c "'") eqn:E4; [reflexivity|].
  cbn [free_of]. now rewrite E1, E2, E3, E4.
Qed.

Lemma escape_fixed (s : string) :
  free_of Html.special s = true -> Html.escape s = s.
Proof.
  induction s as [|c s IH]; [reflexivity|].
  cbn [free_of]. intros H. apply andb_true_iff in H as [Hc Hs].
  rewrite escape_cons, (IH Hs). unfold Html.escape_char.
  unfold Html.special in Hc. apply negb_true_iff in Hc.
  repeat (apply orb_false_iff in Hc as [Hc ?]).
  repeat match goal with H : Ascii.eqb c _ = false |- _ => rewrite H; clear H end.
  reflexivity.
Qed.

(** ** Cursor information *)

Import Info.

Lemma link_text_inside (location : option SourceLocation) :
  exists before after,
    forall t, link_from_location location t = before ++ t ++ after.
Proof.
  unfold link_from_location.
  destruct location as [loc|]; [destruct (file loc) as [f|]|];
    try (exists EmptyString, EmptyString; intros t; simpl;
         now rewrite append_nil_r).
  destruct (truthy (name f)).
  - exists ("<a href=" ++ String dquote (name f) ++ ":"
            ++ str_int (line loc) ++ ":" ++ str_int (column loc)
            ++ String dquote ">"), "</a>".
    intros t. simpl. repeat (rewrite ?append_assoc; simpl). reflexivity.
  - exists EmptyString, EmptyString; intros t; simpl.
    now rewrite append_nil_r.
Qed.

(** The result of [details], piece by piece. *)
Lemma details_layout (cursor : Cursor) (chosen : ClangType)
    (kinds : list nat) :
  details cursor chosen kinds
  = static_part cursor
    ++ "<b>Definition:</b><br>"
    ++ type_part cursor chosen
    ++ name_part cursor
    ++ args_part cursor kinds
    ++ const_part cursor
    ++ brief_part cursor
    ++ doc_part cursor.
Proof.
  unfold details, static_part, type_part, name_part, args_part,
    const_part, brief_part, doc_part.
  rewrite length_map.
  destruct (brief_comment cursor) as [b|]; cbn [truthy_opt];
    [destruct (truthy b)|];
    (destruct (raw_comment cursor) as [raw|];
     [destruct (truthy raw); cbn [andb];
      [destruct (Nat.ltb 0 (String.length (cleanup_comment raw)))|]|]);
    destruct (negb (String.eqb (spelling cursor)
                               (type_spelling (cursor_type cursor))));
    destruct (location cursor);
    (destruct (existsb (Nat.eqb (kind cursor)) kinds);
     [destruct (Nat.ltb 0 (List.length (get_arguments cursor)))|]);
    destruct (is_static_method cursor);
    destruct (is_const_method cursor);
    cbv beta zeta;
    repeat (progress (cbn [append]; rewrite ?append_assoc));
    rewrite ?append_nil_r; reflexivity.
Qed.

Lemma contains_intro (a p b : string) : contains (a ++ p ++ b) p = true.
Proof.
  induction a as [|c a IH].
  - cbn [append]. destruct (p ++ b) eqn:E; cbn [contains];
      rewrite <- ?E, (prefix_app p p b (prefix_refl p)); reflexivity.
  - cbn [append contains]. rewrite IH. apply orb_true_r.
Qed.

(** What [build_info_details] returns, and the state it leaves. *)
Lemma build_info_details_run (cursor : Cursor) (kinds : list nat)
    (st : state) :
  build_info_details cursor kinds st
  = if truthy (type_spelling (result_type cursor))
    then (Return (details cursor (result_type cursor) kinds), st)
    else if truthy (type_spelling (cursor_type cursor))
         then (Return (details cursor (cursor_type cursor) kinds), st)
         else (Return EmptyString,
               mkState (libclang_name st)
                       (log st
                        ++ [(WARNING,
                             "No spelling for type provided in info.")])%list
                       (calls st)).
Proof.
  unfold build_info_details.
  destruct (truthy (type_spelling (result_type cursor))); [reflexivity|].
  destruct (truthy (type_spelling (cursor_type cursor))); reflexivity.
Qed.

Lemma details_not_empty (cursor : Cursor) (chosen : ClangType)
    (kinds : list nat) :
  details cursor chosen kinds <> EmptyString
  /\ contains (details cursor chosen kinds) "<b>Definition:</b><br>" = true
  /\ startswith (details cursor chosen kinds) "static "
     = is_static_method cursor.
Proof.
  rewrite details_layout. unfold static_part.
  split; [|split].
  - destruct (is_static_method cursor); discriminate.
  - apply contains_intro.
  - destruct (is_static_method cursor); reflexivity.
Qed.

(** X14.  [location_from_type] only returns locations that have a file:
    the location of the type's declaration when that has a file, else
    the location of the declaration of the pointee when that has a file,
    else [None].  One level of indirection is removed and no more: for a
    pointer to a pointer, neither of them declared in a file, the result
    is [None] whatever the innermost type is. *)
Theorem location_from_type_has_file :
  forall t : ClangType,
    match location_from_type t with
    | Some l =>
        file l <> None
        /\ (location_of (get_declaration t) = Some l
            \/ (has_file (get_declaration t) = false
                /\ location_of (get_declaration (get_pointee t)) = Some l))
    | None =>
        has_file (get_declaration t) = false
        /\ has_file (get_declaration (get_pointee t)) = false
        /\ forall text, link_from_location (location_from_type t) text = text
    end
    /\ forall s1 s2 d1 d2 t',
         t = Type_ s1 d1 (Type_ s2 d2 t') ->
         has_file d1 = false -> has_file d2 = false ->
         location_from_type t = None.
Proof.
  intros t. split.
  - unfold location_from_type.
    assert (Hf : forall d l, has_file d = true -> location_of d = Some l ->
                             file l <> None).
    { intros [[[l'|]]|] l Hd [= <-]; try discriminate Hd.
      cbn in Hd. destruct (file l'); [discriminate | discriminate Hd]. }
    assert (Hs : forall d, has_file d = true -> exists l, location_of d = Some l).
    { intros [[[l'|]]|] Hd; try discriminate Hd. now exists l'. }
    destruct (has_file (get_declaration t)) eqn:E1.
    + destruct (Hs _ E1) as [l Hl]. rewrite Hl. split; [now apply (Hf _ l E1)|].
      now left.
    + destruct (has_file (get_declaration (get_pointee t))) eqn:E2.
      * destruct (Hs _ E2) as [l Hl]. rewrite Hl.
        split; [now apply (Hf _ l E2) | right; auto].
      * repeat split.
  - intros s1 s2 d1 d2 t' -> H1 H2. unfold location_from_type.
    cbn [get_declaration get_pointee]. now rewrite H1, H2.
Qed.

Lemma location_from_type_has_file_witness :
  location_from_type foo_ptr_ptr = None.
Proof.
  apply (proj2 (location_from_type_has_file foo_ptr_ptr)
               "Foo **" "Foo *"
               (Some (mkDeclaration (Some null_location)))
               (Some (mkDeclaration (Some null_location)))
               foo);
    reflexivity.
Defined.

(** X15.  [build_info_details] returns the empty string exactly when
    neither the result type nor the type of the cursor has a spelling;
    it then logs one warning.  In every other case nothing is logged and
    the result holds the label [<b>Definition:</b><br>]. *)
Theorem build_info_details_empty_iff_no_spelling :
  forall (cursor : Cursor) (kinds : list nat) (st : state),
  exists text,
    fst (build_info_details cursor kinds st) = Return text
    /\ (text = EmptyString
        <-> type_spelling (result_type cursor) = EmptyString
            /\ type_spelling (cursor_type cursor) = EmptyString)
    /\ (text = EmptyString ->
        snd (build_info_details cursor kinds st)
        = mkState (libclang_name st)
                  (log st
                   ++ [(WARNING, "No spelling for type provided in info.")])
                  (calls st))
    /\ (text <> EmptyString ->
        snd (build_info_details cursor kinds st) = st
        /\ contains text "<b>Definition:</b><br>" = true).
Proof.
  intros cursor kinds st. rewrite build_info_details_run.
  destruct (truthy (type_spelling (result_type cursor))) eqn:E1.
  - destruct (details_not_empty cursor (result_type cursor) kinds)
      as (Hn & Hc & _).
    eexists. split; [reflexivity|]. apply truthy_true in E1.
    repeat split; try congruence. intros [? _]. congruence.
  - destruct (truthy (type_spelling (cursor_type cursor))) eqn:E2.
    + destruct (details_not_empty cursor (cursor_type cursor) kinds)
        as (Hn & Hc & _).
      eexists. split; [reflexivity|]. apply truthy_true in E2.
      repeat split; try congruence. intros [_ ?]. congruence.
    + exists EmptyString. apply truthy_false in E1, E2.
      repeat split; auto; congruence.
Qed.

(** X16.  The result of a cursor that has a type spelling begins with
    [static ] exactly when the cursor is a static method. *)
Theorem static_methods_are_prefixed :
  forall (cursor : Cursor) (kinds : list nat) (st : state) (text : string),
    fst (build_info_details cursor kinds st) = Return text ->
    text <> EmptyString ->
    startswith text "static " = is_static_method cursor.
Proof.
  intros cursor kinds st text. rewrite build_info_details_run.
  destruct (truthy (type_spelling (result_type cursor)));
    [|destruct (truthy (type_spelling (cursor_type cursor)))];
    cbn [fst]; intros [= <-] Hn; try congruence;
    apply details_not_empty.
Qed.

Lemma static_methods_are_prefixed_witness :
  startswith (details bar int_type [21]) "static " = false.
Proof.
  apply (static_methods_are_prefixed bar [21] fresh
           (details bar int_type [21]));
    [reflexivity | vm_compute; discriminate].
Defined.



(** X18.  A raw comment that [cleanup_comment] turns into the empty
    string adds nothing: the result is the one of the same cursor without
    raw comment, with no [Full Doxygen comment] section. *)
Theorem empty_cleaned_comment_adds_nothing :
  forall (cursor : Cursor) (kinds : list nat) (st : state) (raw : string),
    raw_comment cursor = Some raw ->
    cleanup_comment raw = EmptyString ->
    build_info_details cursor kinds st
    = build_info_details (with_raw_comment cursor None) kinds st.
Proof.
  intros cursor kinds st raw Hr Hc. rewrite !build_info_details_run.
  cbn [with_raw_comment result_type cursor_type].
  rewrite !details_layout.
  unfold static_part, type_part, name_part, args_part, const_part,
    brief_part, doc_part.
  cbn [with_raw_comment spelling cursor_type result_type location kind
       get_arguments is_static_method is_const_method brief_comment
       raw_comment].
  rewrite Hr, Hc. cbn [String.length Nat.ltb Nat.leb].
  rewrite andb_false_r. reflexivity.
Qed.

Lemma empty_cleaned_comment_adds_nothing_witness :
  build_info_details
    (with_raw_comment bar (Some ("/** @brief Does X." ++ String nl " */")))
    [21] fresh
  = build_info_details
      (with_raw_comment
         (with_raw_comment bar
            (Some ("/** @brief Does X." ++ String nl " */")))
         None)
      [21] fresh.
Proof.
  apply (empty_cleaned_comment_adds_nothing
           (with_raw_comment bar
              (Some ("/** @brief Does X." ++ String nl " */")))
           [21] fresh ("/** @brief Does X." ++ String nl " */"));
    [reflexivity | vm_compute; reflexivity].
Defined.

(** X19.  Names pass through [html.escape] and the brief comment does
    not: in the result of a cursor that has a type spelling, the
    spelling of the cursor stands in escaped form, which holds none of
    the characters [<], [>], double quote and single quote (and is the
    spelling itself when that has none of them nor [&]); the brief
    comment, when there is one, stands between [<div>] and [</div>] as it
    is. *)
Theorem names_are_escaped_brief_is_not :
  forall (cursor : Cursor) (kinds : list nat) (st : state) (text : string),
    fst (build_info_details cursor kinds st) = Return text ->
    text <> EmptyString ->
    (exists before after,
        text = before ++ Html.escape (spelling cursor) ++ after)
    /\ free_of Html.markup (Html.escape (spelling cursor)) = true
    /\ (free_of Html.special (spelling cursor) = true ->
        Html.escape (spelling cursor) = spelling cursor)
    /\ (forall b,
          brief_comment cursor = Some b -> b <> EmptyString ->
          exists before after,
            text = before ++ "<div>" ++ b ++ "</div>" ++ after).
Proof.
  intros cursor kinds st text Hr Hn.
  assert (Ht : exists chosen, text = details cursor chosen kinds).
  { rewrite build_info_details_run in Hr.
    destruct (truthy (type_spelling (result_type cursor)));
      [|destruct (truthy (type_spelling (cursor_type cursor)))];
      cbn [fst] in Hr; injection Hr as <-; eauto. congruence. }
  destruct Ht as [chosen ->]. rewrite details_layout.
  split; [|split; [apply escape_markup_free|split; [apply escape_fixed|]]].
  - assert (Hname : exists b a,
               name_part cursor = b ++ Html.escape (spelling cursor) ++ a).
    { unfold name_part. destruct (location cursor) as [l|].
      - destruct (link_text_inside (Some l)) as (b & a & H).
        exists b, a. apply H.
      - exists EmptyString, EmptyString. cbn. now rewrite append_nil_r. }
    destruct Hname as (b & a & ->).
    exists (static_part cursor ++ "<b>Definition:</b><br>"
            ++ type_part cursor chosen ++ b),
      (a ++ args_part cursor kinds ++ const_part cursor
       ++ brief_part cursor ++ doc_part cursor).
    now rewrite !append_assoc.
  - intros b Hb Hbn. unfold brief_part at 1. rewrite Hb.
    apply truthy_true in Hbn. rewrite Hbn.
    exists (static_part cursor ++ "<b>Definition:</b><br>"
            ++ type_part cursor chosen ++ name_part cursor
            ++ args_part cursor kinds ++ const_part cursor
            ++ "<br><br><b>Brief documentation:</b><br>"),
      (doc_part cursor).
    rewrite !append_assoc. reflexivity.
Qed.

Lemma names_are_escaped_brief_is_not_witness :
  exists before after,
    details bar int_type [21]
    = before ++ "<div>" ++ "Does X." ++ "</div>" ++ after.
Proof.
  apply (proj2 (proj2 (proj2 (names_are_escaped_brief_is_not bar [21] fresh
                                (details bar int_type [21])
                                eq_refl
                                ltac:(vm_compute; discriminate))))
               "Does X." eq_refl ltac:(discriminate)).
Defined.

(** ** A bare file name as compiler output *)

Lemma posix_rsplit_no_slash (p : string) :
  free_of is_slash p = true -> Posix.rsplit_sep p = (EmptyString, p).
Proof.
  induction p as [|c p IH]; [reflexivity|].
  cbn [free_of Posix.rsplit_sep]. intros H.
  apply andb_true_iff in H as [Hc Hp]. rewrite (IH Hp). cbn [truthy].
  unfold is_slash in Hc. apply negb_true_iff in Hc. now rewrite Hc.
Qed.

(** X20.  On Linux, with [posixpath], a compiler that answers with a
    bare file name (no [/] in the stripped output: its way of saying it
    does not know the file) sends the search to the current directory:
    the directory derived from the output is [.], and the candidate
    verifies exactly when [.] is a directory and [./FILE] exists. *)
Theorem bare_name_searches_current_directory :
  forall (w : world) (file text : string),
    system w = "Linux" ->
    strip text <> EmptyString ->
    free_of is_slash (strip text) = true ->
    startswith file "/" = false ->
    output_dir (P := Posix.posixpath) w (strip text) = Some "."
    /\ verify (P := Posix.posixpath) w file text
       = if path_isdir w "." && path_exists w ("./" ++ file)
         then Found "." else NotFound.
Proof.
  intros w file text Hw Hn Hs Hf.
  assert (Hd : output_dir (P := Posix.posixpath) w (strip text) = Some ".").
  { unfold output_dir. rewrite Hw. cbn [String.eqb Ascii.eqb Bool.eqb].
    change (@normpath Posix.posixpath) with Posix.normpath.
    change (@dirname Posix.posixpath) with Posix.dirname.
    unfold Posix.dirname. rewrite (posix_rsplit_no_slash _ Hs). reflexivity. }
  split; [exact Hd|].
  unfold verify. rewrite Hd. apply truthy_true in Hn. rewrite Hn.
  change (@join Posix.posixpath "." [file]) with (Posix.join_step "." file).
  unfold Posix.join_step, Posix.sep. rewrite Hf.
  destruct (path_isdir w "."); [|reflexivity].
  cbn [truthy negb endswith String.eqb Ascii.eqb Bool.eqb orb andb append].
  destruct (path_exists w _); reflexivity.
Qed.

Lemma bare_name_searches_current_directory_witness :
  verify (P := Posix.posixpath) linux_cwd "libclang.so"
         ("libclang.so" ++ String nl EmptyString)
  = Found ".".
Proof.
  apply (proj2 (bare_name_searches_current_directory linux_cwd
                  "libclang.so" ("libclang.so" ++ String nl EmptyString)
                  eq_refl ltac:(vm_compute; discriminate)
                  ltac:(vm_compute; reflexivity) eq_refl)).
Defined.
